(** * pycodemap: structural extraction and report rendering

    A shallow embedding of [pycodemap/__main__.py]: the signature
    normaliser [get_arguments_and_hints], the decorator renderer
    [get_decorators], the declaration extractor [analyze_file], the
    report renderer [format_output] and the driver loop of [run],
    followed by the properties of the specification that concern them.

    Python's [ast] module, [open], [os.walk] and [fnmatch] are not part
    of the program: the syntax tree is an inductive type with the fields
    the program reads, and [ast.unparse], [ast.parse], the file system
    and the exclusion test are variables of the section. *)

From Stdlib Require Import List String Ascii Bool Arith Lia.
Import ListNotations.

Set Warnings "-register-all".

Open Scope string_scope.
Open Scope list_scope.

(** String concatenation, as in an f-string or Python's [+] on [str]. *)
Infix "+++" := String.append (right associativity, at level 60).

(** ** Python values the program tests for truth *)

(** [if s:] on a [str]: the empty string is false. *)
Definition truthy (s : string) : bool := negb (s =? "")%string.

(** [if x:] where [x] is [None] or a [str]. *)
Definition truthy_opt (o : option string) : bool :=
  match o with
  | Some s => truthy s
  | None => false
  end.

(** [if xs:] on a list. *)
Definition nonempty {A : Type} (l : list A) : bool :=
  match l with
  | [] => false
  | _ :: _ => true
  end.

(** [enumerate(xs)]. *)
Definition enumerate {A : Type} (l : list A) : list (nat * A) :=
  combine (seq 0 (List.length l)) l.

(** ** The syntax tree ([ast]) *)

(** Expressions.  The program tells [Name] and [Call] from the rest; the
    other constructors are the shapes that occur as decorators,
    annotations, call arguments and assignment targets.  A keyword
    argument of a call is a pair of its name ([None] for [**kw]) and its
    value, as [ast.keyword]. *)
Inductive expr : Type :=
| Name (id : string)
| Constant (repr : string)
| Attribute (value : expr) (attr : string)
| Subscript (value : expr) (slice : expr)
| Tuple (elts : list expr)
| Starred (value : expr)
| Call (func : expr) (args : list expr) (keywords : list (option string * expr)).

(** [ast.arg]. *)
Record arg : Type := mk_arg {
  arg_name : string;
  annotation : option expr
}.

(** [ast.arguments]. *)
Record arguments : Type := mk_arguments {
  posonlyargs : list arg;
  args_ : list arg;
  vararg : option arg;
  kwonlyargs : list arg;
  kw_defaults : list (option expr);
  kwarg : option arg;
  defaults : list expr
}.

(** Statements, with the fields of the [ast] classes. *)
Inductive stmt : Type :=
| FunctionDef (name : string) (args : arguments) (body : list stmt)
    (decorator_list : list expr) (returns : option expr)
| AsyncFunctionDef (name : string) (args : arguments) (body : list stmt)
    (decorator_list : list expr) (returns : option expr)
| ClassDef (name : string) (bases : list expr)
    (keywords : list (option string * expr)) (body : list stmt)
    (decorator_list : list expr)
| Assign (targets : list expr) (value : expr)
| AnnAssign (target : expr) (annotation : expr) (value : option expr)
| If (test : expr) (body : list stmt) (orelse : list stmt)
| Expr (value : expr)
| Import (names : list string)
| Pass.

(** ** Exceptions *)

Inductive exn : Type :=
| SyntaxError     (* ast.parse on text that is not valid syntax *)
| OSError         (* open on a file that cannot be opened *)
| IndexError.     (* xs[0] on an empty list *)

Inductive result (A : Type) : Type :=
| Ok (a : A)
| Raise (e : exn).
Arguments Ok {A} a.
Arguments Raise {A} e.

Definition bind {A B : Type} (m : result A) (k : A -> result B) : result B :=
  match m with
  | Ok a => k a
  | Raise e => Raise e
  end.

Notation "x <- m ;; k" := (bind m (fun x => k))
  (at level 61, m at next level, right associativity).
Notation "' p <- m ;; k" := (bind m (fun p => k))
  (at level 61, p pattern, m at next level, right associativity).

(** A [for] loop whose body may raise: the first exception ends it. *)
Fixpoint for_each {A S : Type} (step : S -> A -> result S) (l : list A) (s : S)
  : result S :=
  match l with
  | [] => Ok s
  | x :: l' => s' <- step s x ;; for_each step l' s'
  end.

(** ** The intermediate model (the dicts the extractor builds) *)

Record func_record : Type := mk_func {
  f_name : string;
  f_args : list (string * option string);
  f_return_type : option string;
  f_decorators : list string
}.

Record attr_record : Type := mk_attr {
  a_name : string;
  a_type : option string
}.

Record class_record : Type := mk_class {
  c_name : string;
  c_decorators : list string;
  c_methods : list func_record;
  c_attributes : list attr_record
}.

Section Extractor.

(** [ast.unparse]. *)
Variable unparse : expr -> string.

(** *** get_arguments_and_hints *)

Definition get_arguments_and_hints (args : arguments) (returns : option expr)
  : list (string * option string) * option string :=
  let args_info :=
    fold_left
      (fun args_info a =>
         let arg_name := arg_name a in
         let arg_type :=
           match annotation a with
           | Some ann => Some (unparse ann)
           | None => None
           end in
         args_info ++ [(arg_name, arg_type)])
      (args_ args) [] in
  let args_info :=
    match vararg args with
    | Some v => args_info ++ [("*" +++ arg_name v, None)]
    | None => args_info
    end in
  let args_info :=
    match kwarg args with
    | Some k => args_info ++ [("**" +++ arg_name k, None)]
    | None => args_info
    end in
  let return_type :=
    match returns with
    | Some r => Some (unparse r)
    | None => None
    end in
  (args_info, return_type).

(** *** get_decorators *)

(** The body of the loop: the text of one decorator. *)
Definition decorator_text (decorator : expr) : string :=
  match decorator with
  | Name id => id
  | Call func args _ =>
      let func_name := unparse func in
      let args := String.concat ", " (map unparse args) in
      if truthy args then func_name +++ "(" +++ args +++ ")" else func_name
  | _ => unparse decorator
  end.

Definition get_decorators (decorator_list : list expr) : list string :=
  fold_left (fun decorators decorator => decorators ++ [decorator_text decorator])
    decorator_list [].

(** *** analyze_file *)

(** [x.id if isinstance(x, ast.Name) else None]. *)
Definition name_id (x : expr) : option string :=
  match x with
  | Name id => Some id
  | _ => None
  end.

(** The body of the loop over a class body; the state is
    [(class_methods, class_attributes)]. *)
Definition class_child
  (st : list func_record * list attr_record) (child : stmt)
  : result (list func_record * list attr_record) :=
  let '(class_methods, class_attributes) := st in
  match child with
  | FunctionDef name args _ decorator_list returns =>
      let '(args, return_type) := get_arguments_and_hints args returns in
      let method_decorators := get_decorators decorator_list in
      Ok (class_methods ++ [mk_func name args return_type method_decorators],
          class_attributes)
  | AnnAssign target ann _ =>
      let name := name_id target in
      let annotation := Some (unparse ann) in
      match name with
      | Some n =>
          if truthy n
          then Ok (class_methods, class_attributes ++ [mk_attr n annotation])
          else Ok st
      | None => Ok st
      end
  | Assign targets _ =>
      match targets with
      | [] => Raise IndexError
      | t0 :: _ =>
          let name := name_id t0 in
          let annotation := None in
          match name with
          | Some n =>
              if truthy n
              then Ok (class_methods, class_attributes ++ [mk_attr n annotation])
              else Ok st
          | None => Ok st
          end
      end
  | _ => Ok st
  end.

(** The body of the loop over [tree.body]; the state is
    [(classes, functions)]. *)
Definition top_level (include_classes include_functions : bool)
  (st : list class_record * list func_record) (node : stmt)
  : result (list class_record * list func_record) :=
  let '(classes, functions) := st in
  match node with
  | ClassDef name _ _ body decorator_list =>
      if include_classes then
        let class_decorators := get_decorators decorator_list in
        '(class_methods, class_attributes) <- for_each class_child body ([], []) ;;
        Ok (classes ++ [mk_class name class_decorators class_methods class_attributes],
            functions)
      else Ok st
  | FunctionDef name args _ decorator_list returns =>
      if include_functions then
        let '(args, return_type) := get_arguments_and_hints args returns in
        let function_decorators := get_decorators decorator_list in
        Ok (classes, functions ++ [mk_func name args return_type function_decorators])
      else Ok st
  | _ => Ok st
  end.

(** [analyze_file] after [ast.parse]: the two loops over the tree. *)
Definition analyze_tree (tree : list stmt) (include_classes include_functions : bool)
  : result (list class_record * list func_record) :=
  for_each (top_level include_classes include_functions) tree ([], []).

(** The file system ([open(filepath).read()], [None] when it fails) and
    the parser ([ast.parse], [None] when it raises [SyntaxError]). *)
Variable read_file : string -> option string.
Variable ast_parse : string -> option (list stmt).

Definition analyze_file (filepath : string) (include_classes include_functions : bool)
  : result (list class_record * list func_record) :=
  match read_file filepath with
  | None => Raise OSError
  | Some text =>
      match ast_parse text with
      | None => Raise SyntaxError
      | Some tree => analyze_tree tree include_classes include_functions
      end
  end.

End Extractor.

(** ** format_output *)

(** The newline character ["\n"]. *)
Definition nl : string := String (ascii_of_nat 10) "".

(** [", ".join(f"{name}: {hint}" if hint else name for name, hint in args)]. *)
Definition join_args (args : list (string * option string)) : string :=
  String.concat ", "
    (map (fun '(name, hint) =>
            match hint with
            | Some h => if truthy h then name +++ ": " +++ h else name
            | None => name
            end) args).

(** [f" -> {return_type}" if return_type else ""]. *)
Definition return_suffix (return_type : option string) : string :=
  match return_type with
  | Some r => if truthy r then " -> " +++ r else ""
  | None => ""
  end.

(** The decorator lines of a method or function: [first] is the prefix
    at index 0, [other] the prefix at every later index. *)
Definition decorator_lines (first other : string) (decorators : list string)
  : list string :=
  if nonempty decorators then
    fold_left
      (fun decorators_output '(i, decorator) =>
         let prefix := if Nat.eqb i 0 then first else other in
         decorators_output ++ [prefix +++ "@" +++ decorator])
      (enumerate decorators) []
  else [].

(** The body of the loop over the methods of a class. *)
Definition method_step (minimalistic : bool) (output : list string)
  (method : func_record) : list string :=
  let decorators_output := decorator_lines "    " "    |" (f_decorators method) in
  let args := join_args (f_args method) in
  let return_type := return_suffix (f_return_type method) in
  let method_output :=
    if minimalistic
    then "    " +++ f_name method +++ "(" +++ args +++ ")" +++ return_type
    else "    Method: " +++ f_name method +++ "(" +++ args +++ ")" +++ return_type in
  let output :=
    if nonempty decorators_output
    then output ++ [String.concat nl decorators_output]
    else output in
  let output := output ++ [method_output] in
  output ++ [""].

(** The body of the loop over the classes. *)
Definition class_step (minimalistic no_attributes : bool) (output : list string)
  (class_data : class_record) : list string :=
  let class_name := c_name class_data in
  let class_decorators := c_decorators class_data in
  let class_attributes := c_attributes class_data in
  let output :=
    if nonempty class_decorators
    then fold_left (fun output decorator => output ++ ["  @" +++ decorator])
           class_decorators output
    else output in
  let output := output ++ ["  Class: " +++ class_name] in
  let output := output ++ [""] in
  let output :=
    if negb no_attributes && nonempty class_attributes then
      let output :=
        fold_left
          (fun output attribute =>
             let attr_type :=
               match a_type attribute with
               | Some t => if truthy t then ": " +++ t else ""
               | None => ""
               end in
             output ++ ["    " +++ a_name attribute +++ attr_type])
          class_attributes output in
      output ++ [""]
    else output in
  fold_left (method_step minimalistic) (c_methods class_data) output.

(** The body of the loop over the functions. *)
Definition function_step (minimalistic : bool) (output : list string)
  (function : func_record) : list string :=
  let decorators_output := decorator_lines "   " "  |" (f_decorators function) in
  let args := join_args (f_args function) in
  let return_type := return_suffix (f_return_type function) in
  let function_output :=
    if minimalistic
    then "    " +++ f_name function +++ "(" +++ args +++ ")" +++ return_type
    else "  Function: " +++ f_name function +++ "(" +++ args +++ ")" +++ return_type in
  let output :=
    if nonempty decorators_output
    then output ++ [String.concat nl decorators_output]
    else output in
  let output := output ++ [function_output] in
  output ++ [""].

(** The list [output] of [format_output] when it reaches its [return]. *)
Definition format_output_list (filepath : string)
  (classes : list class_record) (functions : list func_record)
  (include_classes include_functions minimalistic no_attributes : bool)
  : list string :=
  let output := [] in
  if (include_classes && nonempty classes) || (include_functions && nonempty functions)
  then
    let output := output ++ ["=== " +++ filepath +++ ": ==="] in
    let output := output ++ [""] in
    let output :=
      if include_classes && nonempty classes
      then fold_left (class_step minimalistic no_attributes) classes output
      else output in
    let output :=
      if include_functions && nonempty functions then
        let output :=
          if minimalistic then output ++ ["  Functions:" +++ nl] else output in
        let output := fold_left (function_step minimalistic) functions output in
        output ++ [""]
      else output in
    output ++ [""]
  else output.

Definition format_output (filepath : string)
  (classes : list class_record) (functions : list func_record)
  (include_classes include_functions minimalistic no_attributes : bool)
  : string :=
  String.concat nl
    (format_output_list filepath classes functions
       include_classes include_functions minimalistic no_attributes).

(** ** run *)

(** [str.isspace] on one character (code points below 256). *)
Definition isspace (c : ascii) : bool :=
  let n := nat_of_ascii c in
  ((9 <=? n)%nat && (n <=? 13)%nat) || ((28 <=? n)%nat && (n <=? 32)%nat)
  || Nat.eqb n 133 || Nat.eqb n 160.

Fixpoint lstrip (s : string) : string :=
  match s with
  | EmptyString => EmptyString
  | String c s' => if isspace c then lstrip s' else s
  end.

Fixpoint rstrip (s : string) : string :=
  match s with
  | EmptyString => EmptyString
  | String c s' =>
      match rstrip s' with
      | EmptyString => if isspace c then EmptyString else String c EmptyString
      | r => String c r
      end
  end.

(** [s.strip()]. *)
Definition strip (s : string) : string := rstrip (lstrip s).

(** [s.endswith(suffix)]. *)
Definition endswith (s suffix : string) : bool :=
  let n := String.length s in
  let m := String.length suffix in
  (m <=? n)%nat && (substring (n - m) m s =? suffix)%string.

(** [os.path.join(root, file)] (POSIX). *)
Definition path_join (root file : string) : string :=
  if prefix "/" file then file
  else if (root =? "")%string || endswith root "/" then root +++ file
  else root +++ "/" +++ file.

(** The command line after [parse_args]. *)
Record Namespace : Type := mk_Namespace {
  directory : string;
  functions_only : bool;
  classes_only : bool;
  no_attributes : bool;
  minimalistic : bool;
  output : option string;
  exclude : option string
}.

(** What a run does to the outside, in order: [print(s)],
    [output_file.write(s)], [output_file.close()]. *)
Inductive event : Type :=
| Print (s : string)
| Write (s : string)
| Close.

(** A [for] loop over [l] whose body extends the trace of events or
    raises: an exception leaves the loop with the trace as it stands. *)
Fixpoint for_trace {A : Type}
  (body : A -> list event -> list event * option exn)
  (l : list A) (trace : list event) : list event * option exn :=
  match l with
  | [] => (trace, None)
  | x :: l' =>
      match body x trace with
      | (trace', None) => for_trace body l' trace'
      | (trace', Some e) => (trace', Some e)
      end
  end.

Section Driver.

Variable unparse : expr -> string.
Variable read_file : string -> option string.
Variable ast_parse : string -> option (list stmt).

(** [any(fnmatch.fnmatch(file, p) for p in exclude_patterns)]. *)
Variable excluded : string -> bool.

(** Whether [open(path, "w")] succeeds. *)
Variable writable : string -> bool.

(** The body of the loop over the files of one directory. *)
Definition file_body (args : Namespace) (include_classes include_functions : bool)
  (output_file : bool) (root : string) (file : string) (trace : list event)
  : list event * option exn :=
  if endswith file ".py" && negb (excluded file) then
    let filepath := path_join root file in
    match analyze_file unparse read_file ast_parse filepath
            include_classes include_functions with
    | Raise e => (trace, Some e)
    | Ok (classes, functions) =>
        let result :=
          format_output filepath classes functions
            include_classes include_functions
            (minimalistic args) (no_attributes args) in
        if truthy (strip result) then
          if output_file
          then (trace ++ [Write result], None)
          else (trace ++ [Print result], None)
        else (trace, None)
    end
  else (trace, None).

(** The two nested loops of [run] over what [os.walk] yields. *)
Definition walk_loop (args : Namespace) (include_classes include_functions : bool)
  (output_file : bool) (walk : list (string * list string)) (trace : list event)
  : list event * option exn :=
  for_trace
    (fun '(root, files) =>
       for_trace
         (file_body args include_classes include_functions output_file root)
         files)
    walk trace.

(** [args.output] when it is given and not empty. *)
Definition output_path (args : Namespace) : option string :=
  match output args with
  | Some p => if truthy p then Some p else None
  | None => None
  end.

(** Whether [output_file] is a file ([None] otherwise: the report is
    printed). *)
Definition writes_file (args : Namespace) : bool :=
  match output_path args with
  | Some _ => true
  | None => false
  end.

(** Whether the output file, if one is asked for, can be opened. *)
Definition opens (args : Namespace) : bool :=
  match output_path args with
  | Some p => writable p
  | None => true
  end.

(** [run], given the parsed command line and the [(root, files)] pairs
    that [os.walk(directory)] yields once the excluded directories are
    pruned.  The result is the trace of events and the exception that
    ended the run, if one did. *)
Definition run (args : Namespace) (walk : list (string * list string))
  : list event * option exn :=
  let include_classes := negb (functions_only args) in
  let include_functions := negb (classes_only args) in
  if functions_only args && classes_only args then
    ([Print "You can't use both --functions-only and --classes-only."], None)
  else if negb (opens args) then ([], Some OSError)
  else
    let output_file := writes_file args in
    match walk_loop args include_classes include_functions output_file walk [] with
    | (trace, Some e) => (trace, Some e)
    | (trace, None) => (if output_file then trace ++ [Close] else trace, None)
    end.

End Driver.

(** ** A concrete environment for the examples *)

(** The text of an expression in the manner of [ast.unparse], for the
    shapes of [expr].  The theorems below hold for every [unparse]; this
    one instantiates them on concrete trees. *)
Fixpoint unparse_simple (e : expr) : string :=
  match e with
  | Name id => id
  | Constant repr => repr
  | Attribute v attr => unparse_simple v +++ "." +++ attr
  | Subscript v s => unparse_simple v +++ "[" +++ unparse_simple s +++ "]"
  | Tuple elts => "(" +++ String.concat ", " (map unparse_simple elts) +++ ")"
  | Starred v => "*" +++ unparse_simple v
  | Call f args kws =>
      unparse_simple f +++ "("
      +++ String.concat ", "
            (map unparse_simple args
             ++ map (fun kw : option string * expr =>
                       match fst kw with
                       | Some k => k +++ "=" +++ unparse_simple (snd kw)
                       | None => "**" +++ unparse_simple (snd kw)
                       end) kws)
      +++ ")"
  end.

(** [def name(params): pass] with plain positional parameters. *)
Definition plain_args (params : list arg) : arguments :=
  mk_arguments [] params None [] [] None [].

(** The class of the specification's scenario:
    [class Point: x: int; y: int; def dist(self) -> float]. *)
Definition point_class : stmt :=
  ClassDef "Point" [] []
    [ AnnAssign (Name "x") (Name "int") None;
      AnnAssign (Name "y") (Name "int") None;
      FunctionDef "dist" (plain_args [mk_arg "self" None]) [Pass] []
        (Some (Name "float")) ]
    [].

(** [@staticmethod def add(a, b)]. *)
Definition add_function : stmt :=
  FunctionDef "add" (plain_args [mk_arg "a" None; mk_arg "b" None]) [Pass]
    [Name "staticmethod"] None.

(** Three files: two that parse and one that does not. *)
Definition demo_read (filepath : string) : option string :=
  if (filepath =? "pkg/point.py")%string then Some "class Point: ..."
  else if (filepath =? "pkg/add.py")%string then Some "def add(a, b): ..."
  else if (filepath =? "pkg/broken.py")%string then Some "def (:"
  else if (filepath =? "pkg/empty.py")%string then Some "import os"
  else None.

Definition demo_parse (text : string) : option (list stmt) :=
  if (text =? "class Point: ...")%string then Some [point_class]
  else if (text =? "def add(a, b): ...")%string then Some [add_function]
  else if (text =? "import os")%string then Some [Import ["os"]]
  else None.

Definition demo_args : Namespace :=
  mk_Namespace "pkg" false false false false None None.

(** ** The extractor's results, written as maps and filters

    What the loops of the extractor are shown to compute: each output
    sequence is the image, in source order, of the nodes it comes from. *)

(** The record of one plain positional parameter. *)
Definition positional_record (unparse : expr -> string) (a : arg)
  : string * option string :=
  (arg_name a,
   match annotation a with
   | Some ann => Some (unparse ann)
   | None => None
   end).

(** The record of the [*args] parameter, if there is one. *)
Definition vararg_record (v : option arg) : list (string * option string) :=
  match v with
  | Some v => [("*" +++ arg_name v, None)]
  | None => []
  end.

(** The record of the [**kwargs] parameter, if there is one. *)
Definition kwarg_record (k : option arg) : list (string * option string) :=
  match k with
  | Some k => [("**" +++ arg_name k, None)]
  | None => []
  end.

(** The parameter records of a signature. *)
Definition parameter_records (unparse : expr -> string) (a : arguments)
  : list (string * option string) :=
  map (positional_record unparse) (args_ a)
  ++ vararg_record (vararg a) ++ kwarg_record (kwarg a).

(** The elements of [l] that [f] keeps, mapped, in the order of [l]. *)
Fixpoint filter_map {A B : Type} (f : A -> option B) (l : list A) : list B :=
  match l with
  | [] => []
  | x :: l' =>
      match f x with
      | Some y => y :: filter_map f l'
      | None => filter_map f l'
      end
  end.

(** The record of a plain function definition; nothing for other nodes. *)
Definition function_of (unparse : expr -> string) (node : stmt)
  : option func_record :=
  match node with
  | FunctionDef name args _ decorator_list returns =>
      Some (mk_func name (parameter_records unparse args)
              (option_map unparse returns)
              (map (decorator_text unparse) decorator_list))
  | _ => None
  end.

(** The attribute record of an assignment whose first target is a
    name; nothing for other nodes. *)
Definition attribute_of (unparse : expr -> string) (child : stmt)
  : option attr_record :=
  match child with
  | AnnAssign (Name id) ann _ =>
      if truthy id then Some (mk_attr id (Some (unparse ann))) else None
  | Assign (Name id :: _) _ =>
      if truthy id then Some (mk_attr id None) else None
  | _ => None
  end.

(** The record of a class definition; nothing for other nodes. *)
Definition class_of (unparse : expr -> string) (node : stmt)
  : option class_record :=
  match node with
  | ClassDef name _ _ body decorator_list =>
      Some (mk_class name (map (decorator_text unparse) decorator_list)
              (filter_map (function_of unparse) body)
              (filter_map (attribute_of unparse) body))
  | _ => None
  end.

(** An assignment as the parser builds it has at least one target. *)
Definition has_target (child : stmt) : bool :=
  match child with
  | Assign [] _ => false
  | _ => true
  end.

(** Every assignment directly in the body of a top-level class has a
    target. *)
Definition targets_present (node : stmt) : bool :=
  match node with
  | ClassDef _ _ _ body _ => forallb has_target body
  | _ => true
  end.

(** The first target of an assignment statement. *)
Definition first_target (child : stmt) : option expr :=
  match child with
  | Assign (t :: _) _ => Some t
  | AnnAssign t _ _ => Some t
  | _ => None
  end.

(** The type text an assignment statement gives its attribute. *)
Definition attribute_type (unparse : expr -> string) (child : stmt)
  : option string :=
  match child with
  | AnnAssign _ ann _ => Some (unparse ann)
  | _ => None
  end.

(** Whether the top-level loop makes a record of [node]. *)
Definition declares (include_classes include_functions : bool) (node : stmt)
  : bool :=
  match node with
  | ClassDef _ _ _ _ _ => include_classes
  | FunctionDef _ _ _ _ _ => include_functions
  | _ => false
  end.

(** The text of a signature after the label: [name(args) -> type]. *)
Definition signature (f : func_record) : string :=
  f_name f +++ "(" +++ join_args (f_args f) +++ ")"
  +++ return_suffix (f_return_type f).

(** The text of one parameter record in an argument list. *)
Definition parameter_text (p : string * option string) : string :=
  match snd p with
  | Some h => if truthy h then fst p +++ ": " +++ h else fst p
  | None => fst p
  end.

(** The decorator block of a method or function as one item of
    [output]: its lines joined by newlines, nothing without decorators. *)
Definition decorator_block (first other : string) (decorators : list string)
  : list string :=
  match decorators with
  | [] => []
  | d :: ds =>
      [String.concat nl
         ((first +++ "@" +++ d) :: map (fun x => other +++ "@" +++ x) ds)]
  end.

(** The line of a method and the line of a function. *)
Definition method_line (minimalistic : bool) (m : func_record) : string :=
  (if minimalistic then "    " else "    Method: ") +++ signature m.

Definition function_line (minimalistic : bool) (f : func_record) : string :=
  (if minimalistic then "    " else "  Function: ") +++ signature f.

(** The line of a class and the line of an attribute. *)
Definition class_line (c : class_record) : string := "  Class: " +++ c_name c.

Definition attribute_line (a : attr_record) : string :=
  "    " +++ a_name a +++
  match a_type a with
  | Some t => if truthy t then ": " +++ t else ""
  | None => ""
  end.

(** ** The exclusion patterns of [run] *)

(** [DEFAULT_EXCLUDES].  The program holds the patterns in a set and
    reads it through [any(...)] only, so a list stands for it. *)
Definition DEFAULT_EXCLUDES : list string :=
  [".git"; ".venv*"; ".venv_test"; "__pycache__"; "*.egg-info"; "build"; "dist"].

(** [s.split(sep)] for a separator of one character. *)
Fixpoint split_on (sep : ascii) (s : string) : list string :=
  match s with
  | EmptyString => [EmptyString]
  | String a s' =>
      if Ascii.eqb a sep then EmptyString :: split_on sep s'
      else
        match split_on sep s' with
        | piece :: pieces => String a piece :: pieces
        | [] => [String a EmptyString]
        end
  end.

(** [exclude_patterns] once [args.exclude] is merged in. *)
Definition exclude_patterns (args : Namespace) : list string :=
  DEFAULT_EXCLUDES
  ++ match exclude args with
     | Some e => if truthy e then split_on "|"%char e else []
     | None => []
     end.

Section Exclusion.

(** [fnmatch.fnmatch(name, pattern)]. *)
Variable fnmatch : string -> string -> bool.

(** [any(fnmatch.fnmatch(name, p) for p in patterns)]. *)
Definition matches_any (patterns : list string) (name : string) : bool :=
  existsb (fun p => fnmatch name p) patterns.

(** [dirs[:] = [d for d in dirs if not any(...)]]. *)
Definition prune_dirs (patterns : list string) (dirs : list string)
  : list string :=
  filter (fun d => negb (matches_any patterns d)) dirs.

End Exclusion.

(** ** Vocabulary of the further properties *)

(** The message of [run] when both [-f] and [-c] are given. *)
Definition conflict_message : string :=
  "You can't use both --functions-only and --classes-only.".

(** An event that emits the report of one file on the sink of the run:
    a [print] when there is no output file, a [write] when there is
    one, of a text that begins with the file header. *)
Definition block_event (to_file : bool) (e : event) : bool :=
  match e with
  | Print s => negb to_file && prefix "=== " s
  | Write s => to_file && prefix "=== " s
  | Close => false
  end.

(** Whether a run ended without an exception. *)
Definition completed (r : option exn) : bool :=
  match r with
  | None => true
  | Some _ => false
  end.

(** A class record without its attributes. *)
Definition without_attributes (c : class_record) : class_record :=
  mk_class (c_name c) (c_decorators c) (c_methods c) [].

(** Whether a node is a class definition or a plain function
    definition. *)
Definition is_declaration (node : stmt) : bool :=
  match node with
  | ClassDef _ _ _ _ _ => true
  | FunctionDef _ _ _ _ _ => true
  | _ => false
  end.

(** Whether a statement of a class body is one the extractor reads: a
    plain function definition or an assignment. *)
Definition is_member (child : stmt) : bool :=
  match child with
  | FunctionDef _ _ _ _ _ => true
  | Assign _ _ => true
  | AnnAssign _ _ _ => true
  | _ => false
  end.

(** Whether a string holds the character [c]. *)
Fixpoint has_char (c : ascii) (s : string) : bool :=
  match s with
  | EmptyString => false
  | String a s' => Ascii.eqb a c || has_char c s'
  end.

(** ** The report, line by line

    The text of a report written as its lines, after the rendering
    contract: what [format_output] is shown to return, joined by
    newlines. *)

(** The decorator lines of a method or function: the first under the
    prefix [first], the later ones under the prefix [other]. *)
Definition decorator_line_list (first other : string) (decorators : list string)
  : list string :=
  match decorators with
  | [] => []
  | d :: ds => (first +++ "@" +++ d) :: map (fun x => other +++ "@" +++ x) ds
  end.

(** The lines of a method: its decorator lines, its line, a blank. *)
Definition method_lines (minimalistic : bool) (m : func_record) : list string :=
  decorator_line_list "    " "    |" (f_decorators m)
  ++ [method_line minimalistic m; ""].

(** The lines of a function: its decorator lines, its line, a blank. *)
Definition function_lines (minimalistic : bool) (f : func_record) : list string :=
  decorator_line_list "   " "  |" (f_decorators f)
  ++ [function_line minimalistic f; ""].

(** The lines of a class. *)
Definition class_lines (minimalistic no_attributes : bool) (c : class_record)
  : list string :=
  map (fun d => "  @" +++ d) (c_decorators c)
  ++ [class_line c; ""]
  ++ (if negb no_attributes && nonempty (c_attributes c)
      then map attribute_line (c_attributes c) ++ [""]
      else [])
  ++ flat_map (method_lines minimalistic) (c_methods c).

(** The lines of the report of a file. *)
Definition report_lines (filepath : string)
  (classes : list class_record) (functions : list func_record)
  (include_classes include_functions minimalistic no_attributes : bool)
  : list string :=
  if (include_classes && nonempty classes)
     || (include_functions && nonempty functions)
  then
    ["=== " +++ filepath +++ ": ==="; ""]
    ++ (if include_classes
        then flat_map (class_lines minimalistic no_attributes) classes
        else [])
    ++ (if include_functions && nonempty functions
        then (if minimalistic then ["  Functions:"; ""] else [])
             ++ flat_map (function_lines minimalistic) functions ++ [""]
        else [])
    ++ [""]
  else [].

(** The lines of [l], each followed by a newline. *)
Fixpoint unlines (l : list string) : string :=
  match l with
  | [] => EmptyString
  | x :: l' => x +++ nl +++ unlines l'
  end.

(** * Properties *)

(** ** Loops that append *)

Lemma fold_left_snoc {A B : Type} (f : A -> B) (l : list A) (init : list B) :
  fold_left (fun acc x => acc ++ [f x]) l init = init ++ map f l.
Proof.
  revert init; induction l as [|x l IH]; intros init; simpl.
  - now rewrite app_nil_r.
  - rewrite IH, <- app_assoc. reflexivity.
Qed.

(** A loop body that only appends to [output]: the loop appends, in
    order, what the body appends for each element. *)
Lemma fold_left_appending {A B : Type} (step : list B -> A -> list B) (l : list A) :
  (forall out x, step out x = out ++ step [] x) ->
  forall out, fold_left step l out = out ++ flat_map (step []) l.
Proof.
  intros Hstep; induction l as [|x l IH]; intros out; simpl.
  - now rewrite app_nil_r.
  - rewrite IH, Hstep, <- app_assoc. reflexivity.
Qed.

Lemma for_each_app {A S : Type} (step : S -> A -> result S) (l1 l2 : list A) (s : S) :
  for_each step (l1 ++ l2) s = (s' <- for_each step l1 s ;; for_each step l2 s').
Proof.
  revert s; induction l1 as [|x l1 IH]; intros s; simpl; [reflexivity|].
  destruct (step s x) as [s'|e]; simpl; [apply IH | reflexivity].
Qed.

Lemma for_trace_app {A : Type} (body : A -> list event -> list event * option exn)
  (l1 l2 : list A) (trace : list event) :
  for_trace body (l1 ++ l2) trace =
  match for_trace body l1 trace with
  | (trace', None) => for_trace body l2 trace'
  | (trace', Some e) => (trace', Some e)
  end.
Proof.
  revert trace; induction l1 as [|x l1 IH]; intros trace; simpl; [reflexivity|].
  destruct (body x trace) as [trace' [e|]]; [reflexivity | apply IH].
Qed.

(** ** The signature normaliser *)

Lemma get_arguments_and_hints_eq (unparse : expr -> string)
  (a : arguments) (returns : option expr) :
  get_arguments_and_hints unparse a returns =
  (parameter_records unparse a, option_map unparse returns).
Proof.
  unfold get_arguments_and_hints, parameter_records.
  rewrite (fold_left_snoc (positional_record unparse)). simpl.
  destruct (vararg a), (kwarg a), returns; simpl;
    rewrite ?app_nil_r, <- ?app_assoc; reflexivity.
Qed.

(** C4.  A variadic-positional parameter [x] is recorded as [*x] with no
    type text, and a variadic-keyword parameter [y] as [**y] with no type
    text, whatever annotation [ann] the parameter carries in the source:
    the records follow those of the positional parameters, in that
    order. *)
Theorem variadic_parameters_have_no_type_text :
  forall (unparse : expr -> string) po params ko kd d returns,
    (forall x ann kw,
        fst (get_arguments_and_hints unparse
               (mk_arguments po params (Some (mk_arg x ann)) ko kd kw d) returns)
        = map (positional_record unparse) params
          ++ [("*" +++ x, None)] ++ kwarg_record kw)
    /\ (forall y ann va,
        fst (get_arguments_and_hints unparse
               (mk_arguments po params va ko kd (Some (mk_arg y ann)) d) returns)
        = map (positional_record unparse) params
          ++ vararg_record va ++ [("**" +++ y, None)]).
Proof.
  intros; split; intros; rewrite get_arguments_and_hints_eq; reflexivity.
Qed.

Lemma map_fst_positional (unparse : expr -> string) (params : list arg) :
  map fst (map (positional_record unparse) params) = map arg_name params.
Proof.
  rewrite map_map. apply map_ext. intros a. reflexivity.
Qed.

(** C9.  Positional-only parameters and keyword-only parameters (with
    their defaults) leave no trace in the normalised sequence: the result
    is the one of the signature without them, its names are those of the
    plain positional parameters, then the [*] marker, then the [**]
    marker, and so is the rendered argument list. *)
Theorem keyword_only_and_positional_only_omitted :
  forall (unparse : expr -> string) po params va ko kd kw d returns,
    let full := mk_arguments po params va ko kd kw d in
    let plain := mk_arguments [] params va [] [] kw [] in
    get_arguments_and_hints unparse full returns
    = get_arguments_and_hints unparse plain returns
    /\ map fst (fst (get_arguments_and_hints unparse full returns))
       = map arg_name params
         ++ map fst (vararg_record va) ++ map fst (kwarg_record kw)
    /\ List.length (fst (get_arguments_and_hints unparse full returns))
       = List.length params
         + List.length (vararg_record va) + List.length (kwarg_record kw)
    /\ join_args (fst (get_arguments_and_hints unparse full returns))
       = join_args (parameter_records unparse plain).
Proof.
  intros. subst full plain. rewrite !get_arguments_and_hints_eq.
  unfold parameter_records; simpl.
  repeat split.
  - rewrite !map_app, map_fst_positional. reflexivity.
  - rewrite !length_app, length_map. lia.
Qed.

(** ** The decorator renderer *)

Lemma get_decorators_eq (unparse : expr -> string) (decorator_list : list expr) :
  get_decorators unparse decorator_list = map (decorator_text unparse) decorator_list.
Proof.
  unfold get_decorators. now rewrite fold_left_snoc.
Qed.

Lemma concat_nonempty (sep x : string) (l : list string) :
  x <> "" -> String.concat sep (x :: l) <> "".
Proof.
  intros Hx. destruct x as [|c x]; [congruence|].
  destruct l; simpl; discriminate.
Qed.

Lemma truthy_true (s : string) : s <> "" -> truthy s = true.
Proof.
  intros H. unfold truthy. apply negb_true_iff. now apply String.eqb_neq.
Qed.

(** A call decorator without keyword arguments: the callee alone when
    there is no argument, the callee and the comma-joined argument texts
    in parentheses when there is one (the text of an expression is never
    empty). *)
Lemma decorator_text_positional_call (unparse : expr -> string)
  (func : expr) (args : list expr) (kws : list (option string * expr)) :
  (forall a, In a args -> unparse a <> "") ->
  decorator_text unparse (Call func args kws) =
  match args with
  | [] => unparse func
  | _ :: _ =>
      unparse func +++ "(" +++ String.concat ", " (map unparse args) +++ ")"
  end.
Proof.
  intros Hne. destruct args as [|a args]; [reflexivity|].
  unfold decorator_text. rewrite truthy_true; [reflexivity|].
  simpl map. apply concat_nonempty. apply Hne. now left.
Qed.

(** C5.  The keyword arguments of a call decorator never reach its text:
    the text is that of the call with its keywords removed.  So
    [@dataclass(frozen=True)], a call with one argument, is rendered
    [dataclass], and [@app.route('/x', methods=m)] is rendered
    [app.route('/x')]. *)
Theorem decorator_call_keyword_arguments_dropped :
  (forall (unparse : expr -> string) func args kws,
      decorator_text unparse (Call func args kws)
      = decorator_text unparse (Call func args []))
  /\ get_decorators unparse_simple
       [Call (Name "dataclass") [] [(Some "frozen", Constant "True")]]
     = ["dataclass"]
  /\ unparse_simple
       (Call (Name "dataclass") [] [(Some "frozen", Constant "True")])
     = "dataclass(frozen=True)"
  /\ get_decorators unparse_simple
       [Call (Attribute (Name "app") "route") [Constant "'/x'"]
          [(Some "methods", Name "m")]]
     = ["app.route('/x')"].
Proof.
  repeat split.
Qed.

(** ** The renderer *)

Lemma decorator_lines_from (first other : string) (ds : list string) :
  forall k init,
    fold_left
      (fun decorators_output '(i, decorator) =>
         let prefix := if Nat.eqb i 0 then first else other in
         decorators_output ++ [prefix +++ "@" +++ decorator])
      (combine (seq (S k) (List.length ds)) ds) init
    = init ++ map (fun x => other +++ "@" +++ x) ds.
Proof.
  induction ds as [|d ds IH]; intros k init; simpl.
  - now rewrite app_nil_r.
  - rewrite IH, <- app_assoc. reflexivity.
Qed.

Lemma decorator_lines_cons (first other d : string) (ds : list string) :
  decorator_lines first other (d :: ds)
  = (first +++ "@" +++ d) :: map (fun x => other +++ "@" +++ x) ds.
Proof.
  unfold decorator_lines, enumerate. simpl.
  now rewrite decorator_lines_from.
Qed.

Lemma decorator_lines_block (first other : string) (decorators : list string)
  (out : list string) :
  (if nonempty (decorator_lines first other decorators)
   then out ++ [String.concat nl (decorator_lines first other decorators)]
   else out)
  = out ++ decorator_block first other decorators.
Proof.
  destruct decorators as [|d ds].
  - simpl. now rewrite app_nil_r.
  - rewrite decorator_lines_cons. reflexivity.
Qed.

Lemma method_step_eq (minimalistic : bool) (out : list string) (m : func_record) :
  method_step minimalistic out m
  = out ++ decorator_block "    " "    |" (f_decorators m)
        ++ [method_line minimalistic m; ""].
Proof.
  unfold method_step. cbv zeta. rewrite decorator_lines_block.
  rewrite <- !app_assoc. do 2 f_equal. simpl.
  destruct minimalistic; reflexivity.
Qed.

Lemma function_step_eq (minimalistic : bool) (out : list string) (f : func_record) :
  function_step minimalistic out f
  = out ++ decorator_block "   " "  |" (f_decorators f)
        ++ [function_line minimalistic f; ""].
Proof.
  unfold function_step. cbv zeta. rewrite decorator_lines_block.
  rewrite <- !app_assoc. do 2 f_equal. simpl.
  destruct minimalistic; reflexivity.
Qed.

Lemma method_step_appends (minimalistic : bool) (out : list string) (m : func_record) :
  method_step minimalistic out m = out ++ method_step minimalistic [] m.
Proof. now rewrite !method_step_eq. Qed.

Lemma function_step_appends (minimalistic : bool) (out : list string) (f : func_record) :
  function_step minimalistic out f = out ++ function_step minimalistic [] f.
Proof. now rewrite !function_step_eq. Qed.

Lemma class_step_eq (minimalistic no_attributes : bool) (out : list string)
  (c : class_record) :
  class_step minimalistic no_attributes out c
  = out ++ map (fun d => "  @" +++ d) (c_decorators c)
        ++ [class_line c; ""]
        ++ (if negb no_attributes && nonempty (c_attributes c)
            then map attribute_line (c_attributes c) ++ [""] else [])
        ++ flat_map (method_step minimalistic []) (c_methods c).
Proof.
  unfold class_step. cbv zeta.
  rewrite (fold_left_appending (method_step minimalistic))
    by (intros; apply method_step_appends).
  assert (Hd : (if nonempty (c_decorators c)
                then fold_left (fun output decorator => output ++ ["  @" +++ decorator])
                       (c_decorators c) out
                else out)
               = out ++ map (fun d => "  @" +++ d) (c_decorators c)).
  { rewrite fold_left_snoc. destruct (c_decorators c); simpl;
      [now rewrite app_nil_r | reflexivity]. }
  rewrite Hd.
  destruct (negb no_attributes && nonempty (c_attributes c)).
  - rewrite (fold_left_snoc attribute_line).
    rewrite <- !app_assoc. reflexivity.
  - rewrite <- !app_assoc. reflexivity.
Qed.

Lemma class_step_appends (minimalistic no_attributes : bool) (out : list string)
  (c : class_record) :
  class_step minimalistic no_attributes out c
  = out ++ class_step minimalistic no_attributes [] c.
Proof. now rewrite !class_step_eq. Qed.

(** The list [output] of [format_output]: the header, the items of the
    classes in order, the items of the functions in order, and the blank
    items that close the blocks. *)
Lemma format_output_list_eq (filepath : string)
  (classes : list class_record) (functions : list func_record)
  (include_classes include_functions minimalistic no_attributes : bool) :
  format_output_list filepath classes functions
    include_classes include_functions minimalistic no_attributes
  = if (include_classes && nonempty classes)
       || (include_functions && nonempty functions)
    then
      ["=== " +++ filepath +++ ": ==="; ""]
      ++ (if include_classes
          then flat_map (class_step minimalistic no_attributes []) classes
          else [])
      ++ (if include_functions && nonempty functions
          then (if minimalistic then ["  Functions:" +++ nl] else [])
               ++ flat_map (function_step minimalistic []) functions ++ [""]
          else [])
      ++ [""]
    else [].
Proof.
  unfold format_output_list.
  destruct ((include_classes && nonempty classes)
            || (include_functions && nonempty functions)); [|reflexivity].
  rewrite (fold_left_appending (class_step minimalistic no_attributes))
    by (intros; apply class_step_appends).
  rewrite (fold_left_appending (function_step minimalistic))
    by (intros; apply function_step_appends).
  destruct include_classes, classes as [|c cs], include_functions,
    functions as [|f fs], minimalistic; simpl;
    rewrite <- ?app_assoc; simpl; rewrite ?app_nil_r; reflexivity.
Qed.

Lemma flat_map_in_split {A B : Type} (g : A -> list B) (x : A) (l : list A) :
  In x l -> exists pre post, flat_map g l = pre ++ g x ++ post.
Proof.
  intros Hin. apply in_split in Hin as (l1 & l2 & ->).
  exists (flat_map g l1), (flat_map g l2).
  rewrite flat_map_app. reflexivity.
Qed.

Lemma in_nonempty {A : Type} (x : A) (l : list A) : In x l -> nonempty l = true.
Proof. destruct l; [intros [] | reflexivity]. Qed.

(** The items of an included class stand together in [output]. *)
Lemma class_items_in_output (filepath : string)
  (classes : list class_record) (functions : list func_record)
  (include_functions minimalistic no_attributes : bool) (c : class_record) :
  In c classes ->
  exists pre post,
    format_output_list filepath classes functions
      true include_functions minimalistic no_attributes
    = pre ++ class_step minimalistic no_attributes [] c ++ post.
Proof.
  intros Hc. rewrite format_output_list_eq.
  rewrite (in_nonempty _ _ Hc). cbn [andb orb].
  destruct (flat_map_in_split (class_step minimalistic no_attributes []) c classes Hc)
    as (pre & post & ->).
  exists (["=== " +++ filepath +++ ": ==="; ""] ++ pre).
  eexists. rewrite <- !app_assoc. reflexivity.
Qed.

(** The items of a method of an included class stand together. *)
Lemma method_items_in_output (filepath : string)
  (classes : list class_record) (functions : list func_record)
  (include_functions minimalistic no_attributes : bool)
  (c : class_record) (m : func_record) :
  In c classes -> In m (c_methods c) ->
  exists pre post,
    format_output_list filepath classes functions
      true include_functions minimalistic no_attributes
    = pre ++ method_step minimalistic [] m ++ post.
Proof.
  intros Hc Hm.
  destruct (class_items_in_output filepath classes functions include_functions
              minimalistic no_attributes c Hc) as (pre & post & ->).
  rewrite class_step_eq.
  destruct (flat_map_in_split (method_step minimalistic []) m (c_methods c) Hm)
    as (pre' & post' & ->).
  exists (pre ++ map (fun d => "  @" +++ d) (c_decorators c)
            ++ [class_line c; ""]
            ++ (if negb no_attributes && nonempty (c_attributes c)
                then map attribute_line (c_attributes c) ++ [""] else [])
            ++ pre'), (post' ++ post).
  rewrite <- !app_assoc. reflexivity.
Qed.

(** The items of an included function stand together. *)
Lemma function_items_in_output (filepath : string)
  (classes : list class_record) (functions : list func_record)
  (include_classes minimalistic no_attributes : bool) (f : func_record) :
  In f functions ->
  exists pre post,
    format_output_list filepath classes functions
      include_classes true minimalistic no_attributes
    = pre ++ function_step minimalistic [] f ++ post.
Proof.
  intros Hf. rewrite format_output_list_eq.
  rewrite (in_nonempty _ _ Hf). cbn [andb]. rewrite orb_true_r.
  destruct (flat_map_in_split (function_step minimalistic []) f functions Hf)
    as (pre & post & ->).
  exists (["=== " +++ filepath +++ ": ==="; ""]
            ++ (if include_classes
                then flat_map (class_step minimalistic no_attributes []) classes
                else [])
            ++ (if minimalistic then ["  Functions:" +++ nl] else [])
            ++ pre), (post ++ [""] ++ [""]).
  rewrite <- !app_assoc. reflexivity.
Qed.

(** *** The text of a report *)

Lemma append_assoc (a b c : string) : (a +++ b) +++ c = a +++ b +++ c.
Proof.
  induction a as [|x a IH]; cbn [append]; [reflexivity | now rewrite IH].
Qed.

Lemma list_ascii_of_string_app (a b : string) :
  list_ascii_of_string (a +++ b)
  = list_ascii_of_string a ++ list_ascii_of_string b.
Proof.
  induction a as [|x a IH]; cbn; [reflexivity | now rewrite IH].
Qed.

Lemma append_cancel_r (a b c : string) : a +++ c = b +++ c -> a = b.
Proof.
  intros H. apply (f_equal list_ascii_of_string) in H.
  rewrite !list_ascii_of_string_app in H. apply app_inv_tail in H.
  apply (f_equal string_of_list_ascii) in H.
  now rewrite !string_of_list_ascii_of_string in H.
Qed.

Lemma unlines_single (x : string) : unlines [x] = x +++ nl.
Proof. reflexivity. Qed.

Lemma unlines_app (l1 l2 : list string) :
  unlines (l1 ++ l2) = unlines l1 +++ unlines l2.
Proof.
  induction l1 as [|x l1 IH]; [reflexivity|].
  cbn [app unlines]. now rewrite IH, !append_assoc.
Qed.

(** Joining non-empty lists of lines by newlines and ending each line
    with a newline differ by the last newline. *)
Lemma join_unlines (l : list string) :
  l <> [] -> String.concat nl l +++ nl = unlines l.
Proof.
  induction l as [|x l IH]; intros Hl; [congruence|].
  destruct l as [|y l]; [reflexivity|].
  change (String.concat nl (x :: y :: l))
    with (x +++ nl +++ String.concat nl (y :: l)).
  rewrite !append_assoc, IH by discriminate. reflexivity.
Qed.

Lemma join_eq_of_unlines (l1 l2 : list string) :
  l1 <> [] -> l2 <> [] -> unlines l1 = unlines l2 ->
  String.concat nl l1 = String.concat nl l2.
Proof.
  intros H1 H2 H. apply (append_cancel_r _ _ nl).
  now rewrite !join_unlines.
Qed.

Lemma unlines_flat_map {A : Type} (f g : A -> list string) (l : list A) :
  (forall x, unlines (f x) = unlines (g x)) ->
  unlines (flat_map f l) = unlines (flat_map g l).
Proof.
  intros H. induction l as [|x l IH]; [reflexivity|].
  cbn [flat_map]. now rewrite !unlines_app, H, IH.
Qed.

(** A decorator block is one item that holds its lines. *)
Lemma unlines_decorator_block (first other : string) (decorators : list string) :
  unlines (decorator_block first other decorators)
  = unlines (decorator_line_list first other decorators).
Proof.
  destruct decorators as [|d ds]; [reflexivity|].
  unfold decorator_block, decorator_line_list. rewrite unlines_single.
  apply join_unlines. discriminate.
Qed.

Lemma unlines_method_step (minimalistic : bool) (m : func_record) :
  unlines (method_step minimalistic [] m) = unlines (method_lines minimalistic m).
Proof.
  rewrite method_step_eq. cbn [app]. unfold method_lines.
  now rewrite !unlines_app, unlines_decorator_block.
Qed.

Lemma unlines_function_step (minimalistic : bool) (f : func_record) :
  unlines (function_step minimalistic [] f)
  = unlines (function_lines minimalistic f).
Proof.
  rewrite function_step_eq. cbn [app]. unfold function_lines.
  now rewrite !unlines_app, unlines_decorator_block.
Qed.

Lemma unlines_class_step (minimalistic no_attributes : bool) (c : class_record) :
  unlines (class_step minimalistic no_attributes [] c)
  = unlines (class_lines minimalistic no_attributes c).
Proof.
  rewrite class_step_eq, app_nil_l. unfold class_lines.
  rewrite !unlines_app. do 3 f_equal.
  apply unlines_flat_map. intros m. apply unlines_method_step.
Qed.

Lemma unlines_report (filepath : string)
  (classes : list class_record) (functions : list func_record)
  (incl_c incl_f mini no_attr : bool) :
  unlines (format_output_list filepath classes functions
             incl_c incl_f mini no_attr)
  = unlines (report_lines filepath classes functions
               incl_c incl_f mini no_attr).
Proof.
  rewrite format_output_list_eq. unfold report_lines.
  destruct ((incl_c && nonempty classes) || (incl_f && nonempty functions));
    [|reflexivity].
  rewrite !unlines_app. do 2 f_equal.
  - destruct incl_c; [|reflexivity].
    apply unlines_flat_map. intros c. apply unlines_class_step.
  - f_equal. destruct (incl_f && nonempty functions); [|reflexivity].
    rewrite !unlines_app. f_equal; [destruct mini; reflexivity|].
    f_equal. apply unlines_flat_map. intros f. apply unlines_function_step.
Qed.

(** The text that [format_output] returns is its lines joined by
    newlines. *)
Lemma format_output_text (filepath : string)
  (classes : list class_record) (functions : list func_record)
  (incl_c incl_f mini no_attr : bool) :
  format_output filepath classes functions incl_c incl_f mini no_attr
  = String.concat nl
      (report_lines filepath classes functions incl_c incl_f mini no_attr).
Proof.
  unfold format_output.
  destruct ((incl_c && nonempty classes) || (incl_f && nonempty functions))
    eqn:Hc.
  - apply join_eq_of_unlines.
    + rewrite format_output_list_eq, Hc. discriminate.
    + unfold report_lines. rewrite Hc. discriminate.
    + apply unlines_report.
  - unfold format_output_list, report_lines. now rewrite Hc.
Qed.

(** An item that is a decorator block stands in the text as its
    lines. *)
Lemma join_decorator_block (first other : string) (decorators : list string)
  (pre rest post : list string) :
  rest <> [] ->
  String.concat nl (pre ++ decorator_block first other decorators ++ rest ++ post)
  = String.concat nl
      (pre ++ decorator_line_list first other decorators ++ rest ++ post).
Proof.
  intros Hrest.
  assert (Hne : forall l : list string, pre ++ l ++ rest ++ post <> []).
  { intros l H. apply app_eq_nil in H as [_ H]. apply app_eq_nil in H as [_ H].
    apply app_eq_nil in H as [H _]. contradiction. }
  apply join_eq_of_unlines; [apply Hne | apply Hne |].
  now rewrite !unlines_app, unlines_decorator_block.
Qed.

(** C8.  The text that [format_output] returns is, line by line: the
    header and an empty line; for each class its lines, where each
    method with decorators has them as lines of their own before the
    method line, the first under four spaces and [@], every later one
    under four spaces and [|@]; then for the functions, each function
    with decorators has them as lines of their own before the function
    line, the first under three spaces and [@], every later one under
    two spaces and [|@].  So for every method of an included class and
    every included function with decorators [d :: ds], the text holds
    these lines, followed by the line of the declaration and an empty
    line. *)
Theorem decorator_block_prefixes :
  forall filepath classes functions incl_c incl_f mini no_attr,
    format_output filepath classes functions incl_c incl_f mini no_attr
    = String.concat nl
        (if (incl_c && nonempty classes) || (incl_f && nonempty functions)
         then
           ["=== " +++ filepath +++ ": ==="; ""]
           ++ (if incl_c
               then
                 flat_map
                   (fun c =>
                      map (fun d => "  @" +++ d) (c_decorators c)
                      ++ [class_line c; ""]
                      ++ (if negb no_attr && nonempty (c_attributes c)
                          then map attribute_line (c_attributes c) ++ [""]
                          else [])
                      ++ flat_map
                           (fun m =>
                              match f_decorators m with
                              | [] => []
                              | d :: ds =>
                                  ("    @" +++ d)
                                  :: map (fun x => "    |@" +++ x) ds
                              end
                              ++ [method_line mini m; ""])
                           (c_methods c))
                   classes
               else [])
           ++ (if incl_f && nonempty functions
               then
                 (if mini then ["  Functions:"; ""] else [])
                 ++ flat_map
                      (fun f =>
                         match f_decorators f with
                         | [] => []
                         | d :: ds =>
                             ("   @" +++ d) :: map (fun x => "  |@" +++ x) ds
                         end
                         ++ [function_line mini f; ""])
                      functions
                 ++ [""]
               else [])
           ++ [""]
         else [])
    /\ (forall c m d ds,
        incl_c = true -> In c classes -> In m (c_methods c) ->
        f_decorators m = d :: ds ->
        exists pre post,
          format_output filepath classes functions incl_c incl_f mini no_attr
          = String.concat nl
              (pre
               ++ (("    @" +++ d) :: map (fun x => "    |@" +++ x) ds)
               ++ [method_line mini m; ""]
               ++ post))
    /\ (forall f d ds,
        incl_f = true -> In f functions ->
        f_decorators f = d :: ds ->
        exists pre post,
          format_output filepath classes functions incl_c incl_f mini no_attr
          = String.concat nl
              (pre
               ++ (("   @" +++ d) :: map (fun x => "  |@" +++ x) ds)
               ++ [function_line mini f; ""]
               ++ post)).
Proof.
  intros; split; [|split].
  - rewrite format_output_text. reflexivity.
  - intros c m d ds -> Hc Hm Hd. unfold format_output.
    destruct (method_items_in_output filepath classes functions incl_f mini
                no_attr c m Hc Hm) as (pre & post & ->).
    exists pre, post. rewrite method_step_eq, app_nil_l, <- app_assoc.
    rewrite (join_decorator_block "    " "    |" (f_decorators m) pre
               [method_line mini m; ""] post) by discriminate.
    rewrite Hd. reflexivity.
  - intros f d ds -> Hf Hd. unfold format_output.
    destruct (function_items_in_output filepath classes functions incl_c mini
                no_attr f Hf) as (pre & post & ->).
    exists pre, post. rewrite function_step_eq, app_nil_l, <- app_assoc.
    rewrite (join_decorator_block "   " "  |" (f_decorators f) pre
               [function_line mini f; ""] post) by discriminate.
    rewrite Hd. reflexivity.
Qed.

(** The theorem at a class with one method under three decorators and a
    function under two. *)
Lemma decorator_block_prefixes_witness :
  (exists pre post,
      format_output "m.py"
        [mk_class "A" [] [mk_func "f" [("self", None)] None ["a"; "b"; "c"]] []]
        [mk_func "g" [] None ["d"; "e"]] true true false false
      = String.concat nl
          (pre
           ++ ["    @a"; "    |@b"; "    |@c"]
           ++ ["    Method: f(self)"; ""]
           ++ post))
  /\ (exists pre post,
      format_output "m.py"
        [mk_class "A" [] [mk_func "f" [("self", None)] None ["a"; "b"; "c"]] []]
        [mk_func "g" [] None ["d"; "e"]] true true false false
      = String.concat nl
          (pre ++ ["   @d"; "  |@e"] ++ ["  Function: g()"; ""] ++ post)).
Proof.
  pose proof (decorator_block_prefixes "m.py"
                [mk_class "A" []
                   [mk_func "f" [("self", None)] None ["a"; "b"; "c"]] []]
                [mk_func "g" [] None ["d"; "e"]] true true false false)
    as (_ & Hm & Hf).
  split.
  - apply (Hm (mk_class "A" []
                 [mk_func "f" [("self", None)] None ["a"; "b"; "c"]] [])
              (mk_func "f" [("self", None)] None ["a"; "b"; "c"]) "a" ["b"; "c"]);
      simpl; auto.
  - apply (Hf (mk_func "g" [] None ["d"; "e"]) "d" ["e"]); simpl; auto.
Defined.



(** ** The extractor *)

Lemma for_each_skip {A S : Type} (step : S -> A -> result S)
  (l1 l2 : list A) (x : A) (s : S) :
  (forall s', step s' x = Ok s') ->
  for_each step (l1 ++ x :: l2) s = for_each step (l1 ++ l2) s.
Proof.
  intros Hx. rewrite !for_each_app.
  destruct (for_each step l1 s) as [s'|e]; simpl; [|reflexivity].
  now rewrite Hx.
Qed.

Lemma filter_map_app {A B : Type} (f : A -> option B) (l1 l2 : list A) :
  filter_map f (l1 ++ l2) = filter_map f l1 ++ filter_map f l2.
Proof.
  induction l1 as [|x l1 IH]; simpl; [reflexivity|].
  destruct (f x); simpl; now rewrite IH.
Qed.

(** One step of the loop over a class body: the node adds its method
    record or its attribute record, if it has one. *)
Lemma class_child_eq (unparse : expr -> string) (ms : list func_record)
  (attrs : list attr_record) (child : stmt) :
  has_target child = true ->
  class_child unparse (ms, attrs) child
  = Ok (ms ++ filter_map (function_of unparse) [child],
        attrs ++ filter_map (attribute_of unparse) [child]).
Proof.
  intros Ht.
  destruct child;
    [ unfold class_child; cbv beta iota;
      rewrite get_arguments_and_hints_eq, get_decorators_eq; simpl;
      rewrite app_nil_r; reflexivity | .. ];
    simpl; rewrite ?app_nil_r; try reflexivity.
  - destruct targets as [|t0 ts]; [discriminate Ht|].
    destruct t0; simpl; rewrite ?app_nil_r; try reflexivity.
    destruct (truthy id); simpl; rewrite ?app_nil_r; reflexivity.
  - destruct target; simpl; rewrite ?app_nil_r; try reflexivity.
    destruct (truthy id); simpl; rewrite ?app_nil_r; reflexivity.
Qed.

Lemma class_body_eq (unparse : expr -> string) (body : list stmt) :
  forallb has_target body = true ->
  forall ms attrs,
    for_each (class_child unparse) body (ms, attrs)
    = Ok (ms ++ filter_map (function_of unparse) body,
          attrs ++ filter_map (attribute_of unparse) body).
Proof.
  induction body as [|child body IH]; intros Hb ms attrs.
  - simpl. now rewrite !app_nil_r.
  - simpl in Hb. apply andb_true_iff in Hb as [Hc Hb].
    cbn [for_each]. rewrite (class_child_eq unparse ms attrs child Hc).
    cbn [bind]. rewrite (IH Hb).
    change (child :: body) with ([child] ++ body).
    rewrite !filter_map_app, !app_assoc. reflexivity.
Qed.

Lemma top_level_eq (unparse : expr -> string) (incl_c incl_f : bool)
  (cs : list class_record) (fs : list func_record) (node : stmt) :
  targets_present node = true ->
  top_level unparse incl_c incl_f (cs, fs) node
  = Ok (cs ++ (if incl_c then filter_map (class_of unparse) [node] else []),
        fs ++ (if incl_f then filter_map (function_of unparse) [node] else [])).
Proof.
  intros Ht.
  destruct node;
    [ unfold top_level; cbv beta iota;
      rewrite get_arguments_and_hints_eq, get_decorators_eq;
      destruct incl_f, incl_c; simpl; rewrite ?app_nil_r; reflexivity | .. ];
    simpl; rewrite ?app_nil_r;
    try (destruct incl_c, incl_f; simpl; rewrite ?app_nil_r; reflexivity).
  - destruct incl_c.
    + simpl in Ht. rewrite (class_body_eq unparse body Ht [] []).
      simpl. rewrite get_decorators_eq.
      destruct incl_f; simpl; rewrite ?app_nil_r; reflexivity.
    + destruct incl_f; simpl; rewrite ?app_nil_r; reflexivity.
Qed.

Lemma top_level_loop_eq (unparse : expr -> string) (incl_c incl_f : bool)
  (tree : list stmt) :
  forallb targets_present tree = true ->
  forall cs fs,
    for_each (top_level unparse incl_c incl_f) tree (cs, fs)
    = Ok (cs ++ (if incl_c then filter_map (class_of unparse) tree else []),
          fs ++ (if incl_f then filter_map (function_of unparse) tree else [])).
Proof.
  induction tree as [|node tree IH]; intros Ht cs fs.
  - simpl. destruct incl_c, incl_f; now rewrite !app_nil_r.
  - simpl in Ht. apply andb_true_iff in Ht as [Hn Ht].
    cbn [for_each]. rewrite (top_level_eq unparse incl_c incl_f cs fs node Hn).
    cbn [bind]. rewrite (IH Ht).
    change (node :: tree) with ([node] ++ tree).
    rewrite !filter_map_app.
    destruct incl_c, incl_f; rewrite ?app_nil_r, ?app_assoc; reflexivity.
Qed.

Lemma join_args_eq (args : list (string * option string)) :
  join_args args = String.concat ", " (map parameter_text args).
Proof.
  unfold join_args. f_equal. apply map_ext. intros [name hint]. reflexivity.
Qed.

(** C7.  The extractor neither sorts, drops duplicates nor merges: when
    every assignment of a class body has a target, as the parser
    guarantees, the classes are the records of the class definitions of
    the file in source order, the functions those of its function
    definitions in source order, and within a record the methods, the
    attributes, the decorators and the parameters are the images of
    their nodes in source order.  The rendered argument list is the
    comma-joined texts of the positional parameters in declaration
    order, then the [*] marker, then the [**] marker. *)
Theorem source_order_preserved :
  forall (unparse : expr -> string) tree incl_c incl_f,
    forallb targets_present tree = true ->
    analyze_tree unparse tree incl_c incl_f
    = Ok (if incl_c then filter_map (class_of unparse) tree else [],
          if incl_f then filter_map (function_of unparse) tree else [])
    /\ (forall a returns,
        join_args (fst (get_arguments_and_hints unparse a returns))
        = String.concat ", "
            (map parameter_text (map (positional_record unparse) (args_ a))
             ++ map fst (vararg_record (vararg a))
             ++ map fst (kwarg_record (kwarg a)))).
Proof.
  intros unparse tree incl_c incl_f Ht. split.
  - unfold analyze_tree. rewrite (top_level_loop_eq unparse incl_c incl_f tree Ht).
    reflexivity.
  - intros a returns. rewrite get_arguments_and_hints_eq, join_args_eq.
    unfold parameter_records. simpl fst. rewrite !map_app. do 2 f_equal.
    destruct (vararg a), (kwarg a); reflexivity.
Qed.

(** Two classes of the same name and a function declared between them:
    both classes are kept, in their order. *)
Lemma source_order_preserved_witness :
  analyze_tree unparse_simple
    [point_class; add_function; point_class] true true
  = Ok (filter_map (class_of unparse_simple)
          [point_class; add_function; point_class],
        filter_map (function_of unparse_simple)
          [point_class; add_function; point_class])
  /\ join_args
       (fst (get_arguments_and_hints unparse_simple
               (mk_arguments [] [mk_arg "a" (Some (Name "int")); mk_arg "b" None]
                  (Some (mk_arg "rest" None)) [mk_arg "k" None] [None]
                  (Some (mk_arg "opts" None)) [])
               None))
     = "a: int, b, *rest, **opts".
Proof.
  split.
  - apply (proj1 (source_order_preserved unparse_simple
                    [point_class; add_function; point_class] true true
                    eq_refl)).
  - apply (proj2 (source_order_preserved unparse_simple
                    [point_class; add_function; point_class] true true
                    eq_refl)
             (mk_arguments [] [mk_arg "a" (Some (Name "int")); mk_arg "b" None]
                (Some (mk_arg "rest" None)) [mk_arg "k" None] [None]
                (Some (mk_arg "opts" None)) [])
             None).
Defined.

(** C10.  An [async def] makes no record: at top level and in a class
    body, the extractor gives the result it gives for the file without
    the node; a file that holds only an [async def] yields no record,
    and a class that holds only an [async def] has no method. *)
Theorem async_functions_ignored :
  forall (unparse : expr -> string) incl_c incl_f name args body decs returns,
    (forall pre post,
        analyze_tree unparse
          (pre ++ AsyncFunctionDef name args body decs returns :: post)
          incl_c incl_f
        = analyze_tree unparse (pre ++ post) incl_c incl_f)
    /\ (forall pre post cname bases kws cpre cpost cdecs,
        analyze_tree unparse
          (pre ++ ClassDef cname bases kws
                    (cpre ++ AsyncFunctionDef name args body decs returns :: cpost)
                    cdecs :: post)
          incl_c incl_f
        = analyze_tree unparse
            (pre ++ ClassDef cname bases kws (cpre ++ cpost) cdecs :: post)
            incl_c incl_f)
    /\ analyze_tree unparse [AsyncFunctionDef name args body decs returns]
         incl_c incl_f
       = Ok ([], [])
    /\ (forall cname bases kws cdecs,
        analyze_tree unparse
          [ClassDef cname bases kws
             [AsyncFunctionDef name args body decs returns] cdecs]
          true incl_f
        = Ok ([mk_class cname (get_decorators unparse cdecs) [] []], [])).
Proof.
  intros. repeat split.
  - intros pre post. unfold analyze_tree. apply for_each_skip.
    intros [cs fs]. reflexivity.
  - intros pre post cname bases kws cpre cpost cdecs.
    unfold analyze_tree. rewrite !for_each_app.
    destruct (for_each (top_level unparse incl_c incl_f) pre ([], []))
      as [[cs fs]|e]; [|reflexivity].
    cbn [bind for_each top_level].
    rewrite (for_each_skip (class_child unparse) cpre cpost
               (AsyncFunctionDef name args body decs returns) ([], []));
      [reflexivity|].
    intros [ms attrs]. reflexivity.
Qed.

(** C6 (as the text has it, refuted).  A chained assignment [x = y = 1]
    in a class body has two targets, and it is not skipped: the class
    gets the attribute record of its first target [x]. *)
Lemma chained_assignment_records_first_target :
  analyze_tree unparse_simple
    [ClassDef "A" [] [] [Assign [Name "x"; Name "y"] (Constant "1")] []]
    true true
  = Ok ([mk_class "A" [] [] [mk_attr "x" None]], []).
Proof. reflexivity. Qed.

(** C6 (amended).  An assignment statement of a class body is decided by
    its first target [t] (the only target of an annotated assignment):
    when [t] is a simple name, one attribute record of that name is
    appended, with the annotation text of an annotated assignment and no
    type otherwise; when [t] has any other shape (tuple, attribute
    access, subscript, starred, call) the state is left as it is.  No
    exception is raised in either case, and the later targets of a
    chained assignment are not looked at. *)
Theorem attribute_from_first_target :
  forall (unparse : expr -> string) ms attrs child t,
    first_target child = Some t ->
    class_child unparse (ms, attrs) child
    = Ok (ms,
          match t with
          | Name id =>
              if truthy id
              then attrs ++ [mk_attr id (attribute_type unparse child)]
              else attrs
          | _ => attrs
          end).
Proof.
  intros unparse ms attrs child t Ht.
  destruct child; try discriminate Ht.
  - destruct targets as [|t0 ts]; [discriminate Ht|].
    injection Ht as ->. destruct t; simpl; try reflexivity.
    destruct (truthy id); reflexivity.
  - injection Ht as ->. destruct t; simpl; try reflexivity.
    destruct (truthy id); reflexivity.
Qed.

(** The theorem at [a, b = 1, 2] (a tuple target: nothing is recorded),
    at [x: int = 0] and at the chained [x = self.y = 1]. *)
Lemma attribute_from_first_target_witness :
  class_child unparse_simple ([], [])
    (Assign [Tuple [Name "a"; Name "b"]] (Tuple [Constant "1"; Constant "2"]))
  = Ok ([], [])
  /\ class_child unparse_simple ([], [])
       (AnnAssign (Name "x") (Name "int") (Some (Constant "0")))
     = Ok ([], [mk_attr "x" (Some "int")])
  /\ class_child unparse_simple ([], [])
       (Assign [Name "x"; Attribute (Name "self") "y"] (Constant "1"))
     = Ok ([], [mk_attr "x" None]).
Proof.
  split; [|split].
  - apply (attribute_from_first_target unparse_simple [] []
             (Assign [Tuple [Name "a"; Name "b"]]
                (Tuple [Constant "1"; Constant "2"]))
             (Tuple [Name "a"; Name "b"])).
    reflexivity.
  - apply (attribute_from_first_target unparse_simple [] []
             (AnnAssign (Name "x") (Name "int") (Some (Constant "0")))
             (Name "x")).
    reflexivity.
  - apply (attribute_from_first_target unparse_simple [] []
             (Assign [Name "x"; Attribute (Name "self") "y"] (Constant "1"))
             (Name "x")).
    reflexivity.
Defined.

(** ** Files that yield nothing *)

Lemma top_level_loop_nothing (unparse : expr -> string) (incl_c incl_f : bool)
  (tree : list stmt) :
  existsb (declares incl_c incl_f) tree = false ->
  forall st, for_each (top_level unparse incl_c incl_f) tree st = Ok st.
Proof.
  induction tree as [|node tree IH]; intros Hd st; [reflexivity|].
  simpl in Hd. apply orb_false_iff in Hd as [Hn Hd].
  cbn [for_each].
  assert (Hstep : top_level unparse incl_c incl_f st node = Ok st).
  { destruct st as [cs fs].
    destruct node; simpl in Hn; try reflexivity; subst; reflexivity. }
  rewrite Hstep. cbn [bind]. apply IH, Hd.
Qed.

Lemma format_output_nothing (filepath : string)
  (classes : list class_record) (functions : list func_record)
  (incl_c incl_f mini no_attr : bool) :
  (incl_c && nonempty classes) || (incl_f && nonempty functions) = false ->
  format_output filepath classes functions incl_c incl_f mini no_attr = "".
Proof.
  intros H. unfold format_output, format_output_list. rewrite H. reflexivity.
Qed.

(** C3.  A file none of whose top-level statements is a class definition
    with classes included or a function definition with functions
    included (so also a file without declarations) is analysed to two
    empty lists, [format_output] returns the empty text for it, with no
    header line, and the driver leaves the trace of events as it was:
    nothing is printed or written for the file.  [format_output] is
    empty as well on any lists that the toggles exclude. *)
Theorem nothing_to_report_is_empty :
  forall (unparse : expr -> string) read_file ast_parse excluded
         args incl_c incl_f output_file root file trace text tree,
    read_file (path_join root file) = Some text ->
    ast_parse text = Some tree ->
    existsb (declares incl_c incl_f) tree = false ->
    analyze_file unparse read_file ast_parse (path_join root file) incl_c incl_f
    = Ok ([], [])
    /\ format_output (path_join root file) [] [] incl_c incl_f
         (minimalistic args) (no_attributes args) = ""
    /\ file_body unparse read_file ast_parse excluded args incl_c incl_f
         output_file root file trace
       = (trace, None)
    /\ (forall classes functions,
        (incl_c && nonempty classes) || (incl_f && nonempty functions) = false ->
        format_output (path_join root file) classes functions incl_c incl_f
          (minimalistic args) (no_attributes args) = "").
Proof.
  intros unparse read_file ast_parse excluded args incl_c incl_f output_file
    root file trace text tree Hread Hparse Hd.
  assert (Ha : analyze_file unparse read_file ast_parse (path_join root file)
                 incl_c incl_f = Ok ([], [])).
  { unfold analyze_file. rewrite Hread, Hparse. unfold analyze_tree.
    apply top_level_loop_nothing, Hd. }
  assert (Hf : format_output (path_join root file) [] [] incl_c incl_f
                 (minimalistic args) (no_attributes args) = "").
  { apply format_output_nothing. now rewrite !andb_false_r. }
  repeat split; try assumption.
  - unfold file_body.
    destruct (endswith file ".py" && negb (excluded file)); [|reflexivity].
    rewrite Ha, Hf. reflexivity.
  - intros classes functions H. now apply format_output_nothing.
Qed.

(** The theorem at the file [pkg/empty.py], which holds an import, and
    at [pkg/point.py] with classes excluded. *)
Lemma nothing_to_report_is_empty_witness :
  file_body unparse_simple demo_read demo_parse (fun _ => false) demo_args
    true true false "pkg" "empty.py" []
  = ([], None)
  /\ file_body unparse_simple demo_read demo_parse (fun _ => false) demo_args
       false true false "pkg" "point.py" []
     = ([], None).
Proof.
  split.
  - apply (nothing_to_report_is_empty unparse_simple demo_read demo_parse
             (fun _ => false) demo_args true true false "pkg" "empty.py" []
             "import os" [Import ["os"]]); reflexivity.
  - apply (nothing_to_report_is_empty unparse_simple demo_read demo_parse
             (fun _ => false) demo_args false true false "pkg" "point.py" []
             "class Point: ..." [point_class]); reflexivity.
Defined.

(** ** Files that do not parse *)

Lemma analyze_file_parse_failure (unparse : expr -> string)
  (read_file : string -> option string)
  (ast_parse : string -> option (list stmt))
  (filepath text : string) (incl_c incl_f : bool) :
  read_file filepath = Some text ->
  ast_parse text = None ->
  analyze_file unparse read_file ast_parse filepath incl_c incl_f
  = Raise SyntaxError.
Proof.
  intros Hread Hparse. unfold analyze_file. now rewrite Hread, Hparse.
Qed.

Lemma file_body_parse_failure (unparse : expr -> string)
  (read_file : string -> option string)
  (ast_parse : string -> option (list stmt))
  (excluded : string -> bool) (args : Namespace)
  (incl_c incl_f output_file : bool) (root file text : string)
  (trace : list event) :
  endswith file ".py" = true ->
  excluded file = false ->
  read_file (path_join root file) = Some text ->
  ast_parse text = None ->
  file_body unparse read_file ast_parse excluded args incl_c incl_f
    output_file root file trace
  = (trace, Some SyntaxError).
Proof.
  intros Hpy Hex Hread Hparse. unfold file_body.
  rewrite Hpy, Hex. cbn [negb andb].
  now rewrite (analyze_file_parse_failure _ _ _ _ text _ _ Hread Hparse).
Qed.

(** C1 (as the text has it, refuted).  The file [pkg/broken.py] does not
    parse.  Walked before [pkg/add.py], it ends the run with the
    [SyntaxError] and nothing is printed for [pkg/add.py], which is
    reported when it is walked alone. *)
Lemma parse_failure_aborts_traversal :
  run unparse_simple demo_read demo_parse (fun _ => false) (fun _ => true)
    demo_args [("pkg", ["broken.py"; "add.py"])]
  = ([], Some SyntaxError)
  /\ run unparse_simple demo_read demo_parse (fun _ => false) (fun _ => true)
       demo_args [("pkg", ["add.py"])]
     = ([Print ("=== pkg/add.py: ===" +++ nl +++ nl
                +++ "   @staticmethod" +++ nl
                +++ "  Function: add(a, b)" +++ nl +++ nl +++ nl)],
        None).
Proof. split; reflexivity. Qed.

(** C1 (amended).  For a file whose text does not parse, [analyze_file]
    raises the parse failure ([SyntaxError]).  [run] does not catch it:
    when the files walked before the file were processed without an
    exception, leaving the trace [trace], the run ends with the
    [SyntaxError] and that same trace, whatever files and directories
    come after; they are not processed and the output file is not
    closed. *)
Theorem parse_failure_propagates :
  forall (unparse : expr -> string) read_file ast_parse excluded writable
         args walk1 root files1 file files2 walk2 text trace,
    functions_only args && classes_only args = false ->
    opens writable args = true ->
    endswith file ".py" = true ->
    excluded file = false ->
    read_file (path_join root file) = Some text ->
    ast_parse text = None ->
    walk_loop unparse read_file ast_parse excluded args
      (negb (functions_only args)) (negb (classes_only args))
      (writes_file args) (walk1 ++ [(root, files1)]) []
    = (trace, None) ->
    (forall incl_c incl_f,
        analyze_file unparse read_file ast_parse (path_join root file)
          incl_c incl_f
        = Raise SyntaxError)
    /\ run unparse read_file ast_parse excluded writable args
         (walk1 ++ (root, files1 ++ file :: files2) :: walk2)
       = (trace, Some SyntaxError).
Proof.
  intros unparse read_file ast_parse excluded writable args walk1 root files1
    file files2 walk2 text trace Hconf Hopen Hpy Hex Hread Hparse Hbefore.
  split.
  - intros. now apply (analyze_file_parse_failure _ _ _ _ text).
  - unfold run. rewrite Hconf, Hopen. cbn [negb].
    unfold walk_loop in *.
    rewrite for_trace_app in Hbefore. rewrite for_trace_app.
    destruct (for_trace _ walk1 []) as [t1 [e|]]; [discriminate Hbefore|].
    cbn [for_trace] in Hbefore. cbn [for_trace].
    rewrite for_trace_app.
    destruct (for_trace _ files1 t1) as [t2 [e|]]; [discriminate Hbefore|].
    injection Hbefore as ->.
    cbn [for_trace].
    rewrite (file_body_parse_failure _ _ _ _ _ _ _ _ _ _ text _ Hpy Hex Hread Hparse).
    reflexivity.
Qed.

(** The theorem at [pkg/broken.py], walked after [pkg/point.py] and
    before [pkg/add.py]. *)
Lemma parse_failure_propagates_witness :
  analyze_file unparse_simple demo_read demo_parse
    (path_join "pkg" "broken.py") true true
  = Raise SyntaxError
  /\ run unparse_simple demo_read demo_parse (fun _ => false) (fun _ => true)
       demo_args
       ([] ++ ("pkg", ["point.py"] ++ "broken.py" :: ["add.py"]) :: [("lib", [])])
     = ([Print
           (format_output "pkg/point.py"
              [mk_class "Point" []
                 [mk_func "dist" [("self", None)] (Some "float") []]
                 [mk_attr "x" (Some "int"); mk_attr "y" (Some "int")]]
              [] true true false false)],
        Some SyntaxError).
Proof.
  pose proof (parse_failure_propagates unparse_simple demo_read demo_parse
                (fun _ => false) (fun _ => true) demo_args
                [] "pkg" ["point.py"] "broken.py" ["add.py"] [("lib", [])]
                "def (:" _ eq_refl eq_refl eq_refl eq_refl eq_refl eq_refl
                eq_refl) as [Ha Hr].
  split; [exact (Ha true true) | exact Hr].
Defined.

(** * Further properties *)

(** ** The extractor *)

Lemma top_level_loop_classes_excluded (unparse : expr -> string)
  (incl_f : bool) (tree : list stmt) :
  forall cs fs,
    for_each (top_level unparse false incl_f) tree (cs, fs)
    = Ok (cs, fs ++ (if incl_f then filter_map (function_of unparse) tree else [])).
Proof.
  induction tree as [|node tree IH]; intros cs fs.
  - simpl. destruct incl_f; now rewrite app_nil_r.
  - cbn [for_each].
    assert (Hstep : top_level unparse false incl_f (cs, fs) node
                    = Ok (cs, fs ++ (if incl_f
                                     then filter_map (function_of unparse) [node]
                                     else []))).
    { destruct node;
        [ unfold top_level; cbv beta iota;
          rewrite get_arguments_and_hints_eq, get_decorators_eq;
          destruct incl_f; simpl; rewrite ?app_nil_r; reflexivity | .. ];
        simpl; destruct incl_f; simpl; rewrite ?app_nil_r; reflexivity. }
    rewrite Hstep. cbn [bind]. rewrite IH.
    change (node :: tree) with ([node] ++ tree). rewrite filter_map_app.
    destruct incl_f; rewrite ?app_nil_r, ?app_assoc; reflexivity.
Qed.

(** X1.  With classes excluded the extractor does not enter any class
    body: it returns no class, it returns the functions of the file in
    source order when they are included, and it raises nothing, whatever
    the class bodies hold. *)
Theorem classes_excluded_not_traversed :
  forall (unparse : expr -> string) tree incl_f,
    analyze_tree unparse tree false incl_f
    = Ok ([], if incl_f then filter_map (function_of unparse) tree else []).
Proof.
  intros. unfold analyze_tree. now rewrite top_level_loop_classes_excluded.
Qed.

Lemma top_level_skips (unparse : expr -> string) (incl_c incl_f : bool)
  (node : stmt) :
  is_declaration node = false ->
  forall st, top_level unparse incl_c incl_f st node = Ok st.
Proof.
  intros Hn [cs fs]. destruct node; try discriminate Hn; reflexivity.
Qed.

Lemma class_child_skips (unparse : expr -> string) (child : stmt) :
  is_member child = false ->
  forall st, class_child unparse st child = Ok st.
Proof.
  intros Hc [ms attrs]. destruct child; try discriminate Hc; reflexivity.
Qed.

(** X2.  Only direct declarations are collected.  A top-level statement
    that is neither a class definition nor a plain function definition
    (an [if] block, an import, an expression, whatever it holds) changes
    nothing in the result, and neither does a statement of a class body
    that is neither a plain function definition nor an assignment (a
    nested class, an [if] block with assignments inside). *)
Theorem only_direct_declarations_collected :
  forall (unparse : expr -> string) incl_c incl_f pre post,
    (forall node,
        is_declaration node = false ->
        analyze_tree unparse (pre ++ node :: post) incl_c incl_f
        = analyze_tree unparse (pre ++ post) incl_c incl_f)
    /\ (forall child cname bases kws cpre cpost cdecs,
        is_member child = false ->
        analyze_tree unparse
          (pre ++ ClassDef cname bases kws (cpre ++ child :: cpost) cdecs :: post)
          incl_c incl_f
        = analyze_tree unparse
            (pre ++ ClassDef cname bases kws (cpre ++ cpost) cdecs :: post)
            incl_c incl_f).
Proof.
  intros unparse incl_c incl_f pre post. split.
  - intros node Hn. unfold analyze_tree. apply for_each_skip.
    now apply top_level_skips.
  - intros child cname bases kws cpre cpost cdecs Hc.
    unfold analyze_tree. rewrite !for_each_app.
    destruct (for_each (top_level unparse incl_c incl_f) pre ([], []))
      as [[cs fs]|e]; [|reflexivity].
    cbn [bind for_each top_level].
    rewrite (for_each_skip (class_child unparse) cpre cpost child ([], []));
      [reflexivity|].
    now apply class_child_skips.
Qed.

(** The theorem at a class declared under an [if] at top level and at a
    class nested in the body of [Point]. *)
Lemma only_direct_declarations_collected_witness :
  analyze_tree unparse_simple
    ([point_class] ++ If (Name "DEBUG") [point_class; add_function] [] :: [])
    true true
  = analyze_tree unparse_simple ([point_class] ++ []) true true
  /\ analyze_tree unparse_simple
       ([] ++ ClassDef "Outer" [] []
                ([Assign [Name "x"] (Constant "1")]
                 ++ ClassDef "Inner" [] [] [Assign [Name "y"] (Constant "2")] []
                 :: [])
                [] :: [])
       true true
     = analyze_tree unparse_simple
         ([] ++ ClassDef "Outer" [] []
                  ([Assign [Name "x"] (Constant "1")] ++ []) [] :: [])
         true true.
Proof.
  split.
  - apply (proj1 (only_direct_declarations_collected unparse_simple true true
                    [point_class] [])).
    reflexivity.
  - apply (proj2 (only_direct_declarations_collected unparse_simple true true
                    [] [])).
    reflexivity.
Defined.

(** X4.  A call decorator whose first argument has a text is rendered
    as the callee, an opening parenthesis, the comma-joined texts of its
    positional arguments and a closing parenthesis; a call without
    positional argument is rendered as the callee alone. *)
Theorem call_decorator_text :
  forall (unparse : expr -> string) func kws,
    (forall a args,
        unparse a <> "" ->
        decorator_text unparse (Call func (a :: args) kws)
        = unparse func +++ "("
          +++ String.concat ", " (map unparse (a :: args)) +++ ")")
    /\ decorator_text unparse (Call func [] kws) = unparse func.
Proof.
  intros unparse func kws. split; [|reflexivity].
  intros a args Ha. unfold decorator_text.
  rewrite truthy_true; [reflexivity|].
  simpl map. now apply concat_nonempty.
Qed.

(** The theorem at [@app.route('/x', m)]. *)
Lemma call_decorator_text_witness :
  decorator_text unparse_simple
    (Call (Attribute (Name "app") "route") [Constant "'/x'"; Name "m"] [])
  = "app.route('/x', m)".
Proof.
  apply (proj1 (call_decorator_text unparse_simple
                  (Attribute (Name "app") "route") [])
           (Constant "'/x'") [Name "m"]).
  discriminate.
Defined.

(** X5.  When the text of a name is the name, a call of a name without
    positional argument is rendered as the bare name is: [@f()] and [@f]
    give the same decorator text. *)
Theorem empty_call_renders_as_bare_name :
  forall (unparse : expr -> string) id kws,
    unparse (Name id) = id ->
    get_decorators unparse [Call (Name id) [] kws]
    = get_decorators unparse [Name id].
Proof.
  intros unparse id kws Hid. rewrite !get_decorators_eq. simpl. now rewrite Hid.
Qed.

Lemma empty_call_renders_as_bare_name_witness :
  get_decorators unparse_simple [Call (Name "cache") [] []]
  = get_decorators unparse_simple [Name "cache"].
Proof.
  apply (empty_call_renders_as_bare_name unparse_simple "cache" []).
  reflexivity.
Defined.

(** ** The renderer *)

Lemma flat_map_map {A B C : Type} (f : A -> B) (g : B -> list C) (l : list A) :
  flat_map g (map f l) = flat_map (fun x => g (f x)) l.
Proof.
  induction l as [|x l IH]; simpl; [reflexivity | now rewrite IH].
Qed.

Lemma nonempty_map {A B : Type} (f : A -> B) (l : list A) :
  nonempty (map f l) = nonempty l.
Proof. destruct l; reflexivity. Qed.

(** X6.  With [no_attributes] set the report is the one of the same
    classes without their attributes, rendered with attributes shown:
    no attribute line and no blank line after the attributes appear, and
    nothing else changes. *)
Theorem no_attributes_hides_attributes :
  forall filepath classes functions incl_c incl_f mini,
    format_output filepath classes functions incl_c incl_f mini true
    = format_output filepath (map without_attributes classes) functions
        incl_c incl_f mini false.
Proof.
  intros. unfold format_output. f_equal.
  rewrite !format_output_list_eq, nonempty_map, flat_map_map.
  destruct ((incl_c && nonempty classes) || (incl_f && nonempty functions));
    [|reflexivity].
  assert (Hc : flat_map (class_step mini true []) classes
               = flat_map (fun c => class_step mini false [] (without_attributes c))
                   classes).
  { apply flat_map_ext. intros c. rewrite !class_step_eq. reflexivity. }
  rewrite Hc. reflexivity.
Qed.

(** X7.  A list that its toggle excludes has no influence on the
    report: with classes excluded the text is the one for no class, with
    functions excluded the one for no function. *)
Theorem excluded_records_do_not_show :
  forall filepath classes functions mini no_attr,
    (forall incl_f,
        format_output filepath classes functions false incl_f mini no_attr
        = format_output filepath [] functions false incl_f mini no_attr)
    /\ (forall incl_c,
        format_output filepath classes functions incl_c false mini no_attr
        = format_output filepath classes [] incl_c false mini no_attr).
Proof.
  intros. split; intros; unfold format_output;
    rewrite !format_output_list_eq.
  - reflexivity.
  - destruct incl_c; cbn [andb orb]; rewrite ?orb_false_r; reflexivity.
Qed.

(** X8.  The layout of a report.  When something is included, the list
    of output items is: the header and a blank; for each class in order
    its decorator lines, its class line, a blank, its attribute lines
    and a blank when attributes are shown and present, and for each
    method in order its decorator block, its line and a blank; then,
    when functions are included and present, the [Functions:] header in
    minimalistic mode, for each function in order its decorator block,
    its line and a blank, and one more blank; then a closing blank.  All
    classes come before all functions. *)
Theorem report_layout :
  forall filepath classes functions incl_c incl_f mini no_attr,
    format_output_list filepath classes functions incl_c incl_f mini no_attr
    = if (incl_c && nonempty classes) || (incl_f && nonempty functions)
      then
        ["=== " +++ filepath +++ ": ==="; ""]
        ++ (if incl_c
            then
              flat_map
                (fun c =>
                   map (fun d => "  @" +++ d) (c_decorators c)
                   ++ [class_line c; ""]
                   ++ (if negb no_attr && nonempty (c_attributes c)
                       then map attribute_line (c_attributes c) ++ [""]
                       else [])
                   ++ flat_map
                        (fun m =>
                           decorator_block "    " "    |" (f_decorators m)
                           ++ [method_line mini m; ""])
                        (c_methods c))
                classes
            else [])
        ++ (if incl_f && nonempty functions
            then
              (if mini then ["  Functions:" +++ nl] else [])
              ++ flat_map
                   (fun f =>
                      decorator_block "   " "  |" (f_decorators f)
                      ++ [function_line mini f; ""])
                   functions
              ++ [""]
            else [])
        ++ [""]
      else [].
Proof.
  intros. rewrite format_output_list_eq.
  destruct ((incl_c && nonempty classes) || (incl_f && nonempty functions));
    [|reflexivity].
  f_equal. f_equal.
  - destruct incl_c; [|reflexivity].
    apply flat_map_ext. intros c. rewrite class_step_eq. cbn [app].
    do 4 f_equal.
    apply flat_map_ext. intros m. now rewrite method_step_eq.
  - f_equal. destruct (incl_f && nonempty functions); [|reflexivity].
    do 2 f_equal.
    apply flat_map_ext. intros f. now rewrite function_step_eq.
Qed.

Lemma concat_header (sep h : string) (l : list string) :
  l <> [] ->
  String.concat sep (h :: EmptyString :: l)
  = h +++ sep +++ sep +++ String.concat sep l.
Proof.
  intros Hl. destruct l as [|x l]; [congruence|]. reflexivity.
Qed.

Lemma format_output_header (filepath : string)
  (classes : list class_record) (functions : list func_record)
  (incl_c incl_f mini no_attr : bool) :
  (incl_c && nonempty classes) || (incl_f && nonempty functions) = true ->
  exists rest,
    format_output filepath classes functions incl_c incl_f mini no_attr
    = ("=== " +++ filepath +++ ": ===") +++ nl +++ nl +++ rest.
Proof.
  intros H. unfold format_output. rewrite format_output_list_eq, H.
  eexists. cbn [app]. apply concat_header.
  intros Hnil. apply app_eq_nil in Hnil as [_ Hnil].
  apply app_eq_nil in Hnil as [_ Hnil]. discriminate Hnil.
Qed.

(** X9.  [format_output] returns the empty text exactly when nothing is
    included: no class with classes included and no function with
    functions included.  Otherwise the text begins with the header line
    of the file and an empty line. *)
Theorem format_output_empty_iff :
  forall filepath classes functions incl_c incl_f mini no_attr,
    (format_output filepath classes functions incl_c incl_f mini no_attr = ""
     <-> (incl_c && nonempty classes) || (incl_f && nonempty functions) = false)
    /\ ((incl_c && nonempty classes) || (incl_f && nonempty functions) = true ->
        exists rest,
          format_output filepath classes functions incl_c incl_f mini no_attr
          = ("=== " +++ filepath +++ ": ===") +++ nl +++ nl +++ rest).
Proof.
  intros. split; [split|].
  - intros Hempty.
    destruct ((incl_c && nonempty classes) || (incl_f && nonempty functions))
      eqn:Hc; [|reflexivity].
    destruct (format_output_header filepath classes functions incl_c incl_f
                mini no_attr Hc) as [rest Hrest].
    rewrite Hrest in Hempty. discriminate Hempty.
  - apply format_output_nothing.
  - apply format_output_header.
Qed.

Lemma format_output_empty_iff_witness :
  exists rest,
    format_output "m.py" [] [mk_func "g" [] None []] true true false false
    = ("=== " +++ "m.py" +++ ": ===") +++ nl +++ nl +++ rest.
Proof.
  apply (proj2 (format_output_empty_iff "m.py" [] [mk_func "g" [] None []]
                  true true false false)).
  reflexivity.
Defined.

(** ** The driver *)

Lemma strip_keeps_text (c : ascii) (s : string) :
  isspace c = false -> truthy (strip (String c s)) = true.
Proof.
  intros Hc. unfold strip. cbn [lstrip]. rewrite Hc. cbn [rstrip]. rewrite Hc.
  destruct (rstrip s); reflexivity.
Qed.

Lemma prefix_header (s : string) : prefix "=== " ("=== " +++ s) = true.
Proof.
  apply prefix_correct. cbn. destruct s; reflexivity.
Qed.

Lemma format_output_is_reported (filepath : string)
  (classes : list class_record) (functions : list func_record)
  (incl_c incl_f mini no_attr : bool) :
  (incl_c && nonempty classes) || (incl_f && nonempty functions) = true ->
  truthy (strip (format_output filepath classes functions
                   incl_c incl_f mini no_attr)) = true
  /\ prefix "=== " (format_output filepath classes functions
                      incl_c incl_f mini no_attr) = true.
Proof.
  intros H.
  destruct (format_output_header filepath classes functions incl_c incl_f
              mini no_attr H) as [rest ->].
  split; [apply strip_keeps_text; reflexivity|].
  apply (prefix_header ((filepath +++ ": ===") +++ nl +++ nl +++ rest)).
Qed.

(** X10.  The driver emits the report of a file exactly when the file
    has something included.  For a [.py] file that is not excluded and
    is analysed without an exception, one event is appended to the
    trace when a class is included or a function is included (a write
    of the text of [format_output] when there is an output file, a
    print of it otherwise), and none when nothing is included. *)
Theorem file_reported_when_something_included :
  forall (unparse : expr -> string) read_file ast_parse excluded args
         incl_c incl_f output_file root file trace classes functions,
    endswith file ".py" = true ->
    excluded file = false ->
    analyze_file unparse read_file ast_parse (path_join root file) incl_c incl_f
    = Ok (classes, functions) ->
    file_body unparse read_file ast_parse excluded args incl_c incl_f
      output_file root file trace
    = (trace
       ++ (if (incl_c && nonempty classes) || (incl_f && nonempty functions)
           then
             let text :=
               format_output (path_join root file) classes functions
                 incl_c incl_f (minimalistic args) (no_attributes args) in
             [if output_file then Write text else Print text]
           else []),
       None).
Proof.
  intros unparse read_file ast_parse excluded args incl_c incl_f output_file
    root file trace classes functions Hpy Hex Ha.
  unfold file_body. rewrite Hpy, Hex, Ha. cbn [negb andb].
  destruct ((incl_c && nonempty classes) || (incl_f && nonempty functions))
    eqn:Hc.
  - destruct (format_output_is_reported (path_join root file) classes functions
                incl_c incl_f (minimalistic args) (no_attributes args) Hc)
      as [-> _].
    destruct output_file; reflexivity.
  - rewrite (format_output_nothing _ _ _ _ _ _ _ Hc). cbn.
    now rewrite app_nil_r.
Qed.

Lemma file_reported_when_something_included_witness :
  file_body unparse_simple demo_read demo_parse (fun _ => false) demo_args
    true true true "pkg" "add.py" [Write "earlier"]
  = ([Write "earlier";
      Write (format_output "pkg/add.py" []
               [mk_func "add" [("a", None); ("b", None)] None ["staticmethod"]]
               true true false false)],
     None).
Proof.
  apply (file_reported_when_something_included unparse_simple demo_read
           demo_parse (fun _ => false) demo_args true true true "pkg" "add.py"
           [Write "earlier"] []
           [mk_func "add" [("a", None); ("b", None)] None ["staticmethod"]]);
    reflexivity.
Defined.

(** What one file adds to the trace does not depend on the trace. *)
Lemma file_body_local (unparse : expr -> string)
  (read_file : string -> option string)
  (ast_parse : string -> option (list stmt))
  (excluded : string -> bool) (args : Namespace)
  (incl_c incl_f output_file : bool) (root file : string) (trace : list event) :
  file_body unparse read_file ast_parse excluded args incl_c incl_f
    output_file root file trace
  = (trace ++ fst (file_body unparse read_file ast_parse excluded args
                     incl_c incl_f output_file root file []),
     snd (file_body unparse read_file ast_parse excluded args
            incl_c incl_f output_file root file []))
  /\ forallb (block_event output_file)
       (fst (file_body unparse read_file ast_parse excluded args
               incl_c incl_f output_file root file [])) = true.
Proof.
  unfold file_body.
  destruct (endswith file ".py" && negb (excluded file));
    [|cbn; now rewrite app_nil_r].
  destruct (analyze_file unparse read_file ast_parse (path_join root file)
              incl_c incl_f) as [[classes functions]|e];
    [|cbn; now rewrite app_nil_r].
  destruct ((incl_c && nonempty classes) || (incl_f && nonempty functions))
    eqn:Hc.
  - destruct (format_output_is_reported (path_join root file) classes functions
                incl_c incl_f (minimalistic args) (no_attributes args) Hc)
      as [-> Hp].
    destruct output_file; cbn; rewrite Hp; split; reflexivity.
  - rewrite (format_output_nothing _ _ _ _ _ _ _ Hc). cbn.
    now rewrite app_nil_r.
Qed.

(** A loop whose body adds to the trace what it adds to the empty trace
    adds, in order, what its iterations add. *)
Lemma for_trace_local {A : Type}
  (body : A -> list event -> list event * option exn) (ok : event -> bool) :
  (forall x t,
      body x t = (t ++ fst (body x []), snd (body x []))
      /\ forallb ok (fst (body x [])) = true) ->
  forall l t,
    for_trace body l t
    = (t ++ fst (for_trace body l []), snd (for_trace body l []))
    /\ forallb ok (fst (for_trace body l [])) = true.
Proof.
  intros Hbody. induction l as [|x l IH]; intros t.
  - cbn. now rewrite app_nil_r.
  - destruct (Hbody x t) as [Hx _]. destruct (Hbody x []) as [_ Hok].
    cbn [for_trace]. rewrite Hx.
    destruct (body x []) as [tx [e|]]; cbn [fst snd] in *.
    + split; [reflexivity | exact Hok].
    + destruct (IH (t ++ tx)) as [-> _]. destruct (IH tx) as [-> Hl].
      cbn [fst snd]. rewrite forallb_app, Hok, Hl, app_assoc.
      split; reflexivity.
Qed.

Lemma walk_loop_local (unparse : expr -> string)
  (read_file : string -> option string)
  (ast_parse : string -> option (list stmt))
  (excluded : string -> bool) (args : Namespace)
  (incl_c incl_f output_file : bool)
  (walk : list (string * list string)) (trace : list event) :
  walk_loop unparse read_file ast_parse excluded args incl_c incl_f
    output_file walk trace
  = (trace ++ fst (walk_loop unparse read_file ast_parse excluded args
                     incl_c incl_f output_file walk []),
     snd (walk_loop unparse read_file ast_parse excluded args
            incl_c incl_f output_file walk []))
  /\ forallb (block_event output_file)
       (fst (walk_loop unparse read_file ast_parse excluded args
               incl_c incl_f output_file walk [])) = true.
Proof.
  unfold walk_loop. apply for_trace_local.
  intros [root files] t. apply for_trace_local.
  intros file t'. apply file_body_local.
Qed.

Lemma run_trace_blocks (unparse : expr -> string)
  (read_file : string -> option string)
  (ast_parse : string -> option (list stmt))
  (excluded writable : string -> bool) (args : Namespace)
  (walk : list (string * list string)) :
  functions_only args && classes_only args = false ->
  exists blocks,
    forallb (block_event (writes_file args)) blocks = true
    /\ fst (run unparse read_file ast_parse excluded writable args walk)
       = blocks
         ++ (if writes_file args
                && completed (snd (run unparse read_file ast_parse excluded
                                     writable args walk))
             then [Close] else []).
Proof.
  intros Hconf. unfold run. rewrite Hconf.
  destruct (opens writable args); cbn [negb].
  - destruct (walk_loop_local unparse read_file ast_parse excluded args
                (negb (functions_only args)) (negb (classes_only args))
                (writes_file args) walk []) as [_ Hok].
    destruct (walk_loop unparse read_file ast_parse excluded args
                (negb (functions_only args)) (negb (classes_only args))
                (writes_file args) walk []) as [trace [e|]];
      cbn [fst snd completed] in *; exists trace; split; try exact Hok.
    + now rewrite andb_false_r, app_nil_r.
    + rewrite andb_true_r. destruct (writes_file args);
        [reflexivity | now rewrite app_nil_r].
  - exists []. cbn. now rewrite andb_false_r.
Qed.

(** X11.  The shape of the trace of a run without the flag conflict:
    report events only, each the text of one file beginning with
    [=== ], all prints when there is no output file and all writes when
    there is one; then, when there is an output file and the run ended
    without an exception, one [close], and no [close] otherwise. *)
Theorem run_trace_shape :
  forall (unparse : expr -> string) read_file ast_parse excluded writable
         args walk,
    functions_only args && classes_only args = false ->
    exists blocks,
      forallb (block_event (writes_file args)) blocks = true
      /\ fst (run unparse read_file ast_parse excluded writable args walk)
         = blocks
           ++ (if writes_file args
                  && completed (snd (run unparse read_file ast_parse excluded
                                       writable args walk))
               then [Close] else []).
Proof. intros. now apply run_trace_blocks. Qed.

Lemma run_trace_shape_witness :
  exists blocks,
    forallb (block_event false) blocks = true
    /\ fst (run unparse_simple demo_read demo_parse (fun _ => false)
              (fun _ => true) demo_args
              [("pkg", ["point.py"; "empty.py"; "add.py"])])
       = blocks ++ [].
Proof.
  apply (run_trace_shape unparse_simple demo_read demo_parse (fun _ => false)
           (fun _ => true) demo_args
           [("pkg", ["point.py"; "empty.py"; "add.py"])]).
  reflexivity.
Defined.

(** X12.  The conflict message is printed exactly when both [-f] and
    [-c] are given; the run then does nothing else, whatever the other
    arguments, the directory and the file system: no file is read and no
    output file is opened. *)
Theorem conflict_message_iff_both_flags :
  forall (unparse : expr -> string) read_file ast_parse excluded writable
         args walk,
    (In (Print conflict_message)
        (fst (run unparse read_file ast_parse excluded writable args walk))
     <-> functions_only args && classes_only args = true)
    /\ (functions_only args && classes_only args = true ->
        run unparse read_file ast_parse excluded writable args walk
        = ([Print conflict_message], None)).
Proof.
  intros. split; [split|].
  - intros Hin.
    destruct (functions_only args && classes_only args) eqn:Hconf;
      [reflexivity|].
    destruct (run_trace_blocks unparse read_file ast_parse excluded writable
                args walk Hconf) as (blocks & Hok & Heq).
    rewrite Heq in Hin. apply in_app_or in Hin as [Hin|Hin].
    + rewrite forallb_forall in Hok. apply Hok in Hin.
      cbn in Hin. now rewrite andb_false_r in Hin.
    + destruct (writes_file args && _); cbn in Hin;
        [destruct Hin as [Hin|[]]; discriminate Hin | destruct Hin].
  - intros Hconf. unfold run. rewrite Hconf. cbn. now left.
  - intros Hconf. unfold run. now rewrite Hconf.
Qed.

Lemma conflict_message_iff_both_flags_witness :
  run unparse_simple demo_read demo_parse (fun _ => false) (fun _ => false)
    (mk_Namespace "pkg" true true false false (Some "out.txt") None)
    [("pkg", ["broken.py"])]
  = ([Print conflict_message], None).
Proof.
  apply (proj2 (conflict_message_iff_both_flags unparse_simple demo_read
                  demo_parse (fun _ => false) (fun _ => false)
                  (mk_Namespace "pkg" true true false false (Some "out.txt") None)
                  [("pkg", ["broken.py"])])).
  reflexivity.
Defined.

Lemma for_trace_silent {A : Type}
  (body : A -> list event -> list event * option exn) (l : list A) :
  (forall x, In x l -> forall t, body x t = (t, None)) ->
  forall t, for_trace body l t = (t, None).
Proof.
  induction l as [|x l IH]; intros Hl t; [reflexivity|].
  cbn [for_trace]. rewrite (Hl x (or_introl eq_refl)).
  apply IH. intros y Hy. apply Hl. now right.
Qed.

(** X13.  Files that do not end in [.py] and files that an exclusion
    pattern matches are never opened.  When every file of the walk is
    such a file, the run emits no report and ends without an exception,
    whatever the file system and the parser would answer. *)
Theorem skipped_files_are_never_read :
  forall (unparse : expr -> string) read_file ast_parse excluded writable
         args walk,
    functions_only args && classes_only args = false ->
    opens writable args = true ->
    forallb
      (fun entry : string * list string =>
         forallb (fun file => negb (endswith file ".py" && negb (excluded file)))
           (snd entry))
      walk = true ->
    run unparse read_file ast_parse excluded writable args walk
    = (if writes_file args then [Close] else [], None).
Proof.
  intros unparse read_file ast_parse excluded writable args walk
    Hconf Hopen Hskip.
  unfold run. rewrite Hconf, Hopen. cbn [negb].
  unfold walk_loop. rewrite for_trace_silent; [reflexivity|].
  intros [root files] Hentry t.
  rewrite forallb_forall in Hskip. specialize (Hskip _ Hentry). cbn in Hskip.
  apply for_trace_silent. intros file Hfile t'.
  rewrite forallb_forall in Hskip. specialize (Hskip _ Hfile).
  unfold file_body. apply negb_true_iff in Hskip. now rewrite Hskip.
Qed.

(** The theorem at a walk of a text file and of a [.py] file that the
    exclusion test matches, neither of which can be read. *)
Lemma skipped_files_are_never_read_witness :
  run unparse_simple (fun _ => None) demo_parse
    (fun file => (file =? "setup.py")%string) (fun _ => true) demo_args
    [("pkg", ["notes.txt"; "setup.py"])]
  = ([], None).
Proof.
  apply (skipped_files_are_never_read unparse_simple (fun _ => None) demo_parse
           (fun file => (file =? "setup.py")%string) (fun _ => true) demo_args
           [("pkg", ["notes.txt"; "setup.py"])]);
    reflexivity.
Defined.

(** X14.  A file that cannot be read ends the run as a file that does
    not parse does: [analyze_file] raises [OSError], and when the files
    walked before it were processed without an exception, the run ends
    with the [OSError] and their trace; the files after it are not
    processed and the output file is not closed. *)
Theorem unreadable_file_ends_the_run :
  forall (unparse : expr -> string) read_file ast_parse excluded writable
         args walk1 root files1 file files2 walk2 trace,
    functions_only args && classes_only args = false ->
    opens writable args = true ->
    endswith file ".py" = true ->
    excluded file = false ->
    read_file (path_join root file) = None ->
    walk_loop unparse read_file ast_parse excluded args
      (negb (functions_only args)) (negb (classes_only args))
      (writes_file args) (walk1 ++ [(root, files1)]) []
    = (trace, None) ->
    run unparse read_file ast_parse excluded writable args
      (walk1 ++ (root, files1 ++ file :: files2) :: walk2)
    = (trace, Some OSError).
Proof.
  intros unparse read_file ast_parse excluded writable args walk1 root files1
    file files2 walk2 trace Hconf Hopen Hpy Hex Hread Hbefore.
  unfold run. rewrite Hconf, Hopen. cbn [negb].
  unfold walk_loop in *.
  rewrite for_trace_app in Hbefore. rewrite for_trace_app.
  destruct (for_trace _ walk1 []) as [t1 [e|]]; [discriminate Hbefore|].
  cbn [for_trace] in Hbefore. cbn [for_trace].
  rewrite for_trace_app.
  destruct (for_trace _ files1 t1) as [t2 [e|]]; [discriminate Hbefore|].
  injection Hbefore as ->.
  cbn [for_trace]. unfold file_body at 1.
  rewrite Hpy, Hex. cbn [negb andb]. unfold analyze_file. rewrite Hread.
  reflexivity.
Qed.

(** The theorem at [pkg/missing.py], which the file system does not
    have, walked after [pkg/point.py]. *)
Lemma unreadable_file_ends_the_run_witness :
  run unparse_simple demo_read demo_parse (fun _ => false) (fun _ => true)
    demo_args
    ([] ++ ("pkg", ["point.py"] ++ "missing.py" :: ["add.py"]) :: [])
  = ([Print
        (format_output "pkg/point.py"
           [mk_class "Point" []
              [mk_func "dist" [("self", None)] (Some "float") []]
              [mk_attr "x" (Some "int"); mk_attr "y" (Some "int")]]
           [] true true false false)],
     Some OSError).
Proof.
  apply (unreadable_file_ends_the_run unparse_simple demo_read demo_parse
           (fun _ => false) (fun _ => true) demo_args
           [] "pkg" ["point.py"] "missing.py" ["add.py"] []);
    reflexivity.
Defined.

Lemma for_trace_flat_map {A : Type}
  (body : A -> list event -> list event * option exn) :
  (forall x t, body x t = (t ++ fst (body x []), snd (body x []))) ->
  forall l,
    snd (for_trace body l []) = None ->
    fst (for_trace body l []) = flat_map (fun x => fst (body x [])) l.
Proof.
  intros Hbody. induction l as [|x l IH]; intros Hdone; [reflexivity|].
  cbn [for_trace flat_map] in *.
  destruct (body x []) as [tx [e|]] eqn:Hx; [discriminate Hdone|].
  cbn [fst].
  assert (Hl : for_trace body l tx
               = (tx ++ fst (for_trace body l []), snd (for_trace body l []))).
  { apply (for_trace_local body (fun _ => true)).
    intros y t. split; [apply Hbody|]. apply forallb_forall. reflexivity. }
  rewrite Hl in *. cbn [fst snd] in *. now rewrite IH.
Qed.

Lemma flat_map_ext_on {A B : Type} (f g : A -> list B) (l : list A) :
  (forall x, In x l -> f x = g x) -> flat_map f l = flat_map g l.
Proof.
  induction l as [|x l IH]; intros H; [reflexivity|].
  cbn [flat_map]. rewrite (H x (or_introl eq_refl)), IH; [reflexivity|].
  intros y Hy. apply H. now right.
Qed.

(** A loop that ends without an exception had no iteration that
    raised. *)
Lemma for_trace_completed {A : Type}
  (body : A -> list event -> list event * option exn) :
  (forall x t, body x t = (t ++ fst (body x []), snd (body x []))) ->
  forall l t x,
    snd (for_trace body l t) = None -> In x l -> snd (body x []) = None.
Proof.
  intros Hbody. induction l as [|y l IH]; intros t x Hdone Hin; [destruct Hin|].
  cbn [for_trace] in Hdone. rewrite (Hbody y t) in Hdone.
  destruct (snd (body y [])) eqn:Hy; [discriminate Hdone|].
  destruct Hin as [<-|Hin]; [exact Hy|].
  eapply IH; eauto.
Qed.

(** X15.  Files are reported independently and in walk order.  In a run
    that ends without an exception, the trace is the concatenation, over
    the directories in walk order and the files of each in order, of
    what each file emits when processed alone from an empty trace,
    followed by the [close] of the output file when there is one. *)
Theorem run_concatenates_file_reports :
  forall (unparse : expr -> string) read_file ast_parse excluded writable
         args walk,
    functions_only args && classes_only args = false ->
    snd (run unparse read_file ast_parse excluded writable args walk) = None ->
    fst (run unparse read_file ast_parse excluded writable args walk)
    = flat_map
        (fun entry : string * list string =>
           flat_map
             (fun file =>
                fst (file_body unparse read_file ast_parse excluded args
                       (negb (functions_only args)) (negb (classes_only args))
                       (writes_file args) (fst entry) file []))
             (snd entry))
        walk
      ++ (if writes_file args then [Close] else []).
Proof.
  intros unparse read_file ast_parse excluded writable args walk Hconf.
  unfold run. rewrite Hconf.
  destruct (opens writable args); cbn [negb]; [|discriminate].
  set (fb := file_body unparse read_file ast_parse excluded args
               (negb (functions_only args)) (negb (classes_only args))
               (writes_file args)).
  assert (Hinner : forall (entry : string * list string) t,
             (let '(root, files) := entry in for_trace (fb root) files) t
             = (t ++ fst ((let '(root, files) := entry in
                           for_trace (fb root) files) []),
                snd ((let '(root, files) := entry in
                      for_trace (fb root) files) []))).
  { intros [root files] t.
    apply (for_trace_local (fb root) (block_event (writes_file args))).
    intros file t'. apply file_body_local. }
  unfold walk_loop. fold fb.
  pose proof (for_trace_flat_map
                (fun entry : string * list string =>
                   let '(root, files) := entry in for_trace (fb root) files)
                Hinner walk) as Houter.
  destruct (for_trace _ walk []) as [trace [e|]] eqn:Hw;
    cbn [fst snd] in *; [discriminate|].
  intros _. cbn [fst].
  assert (Ht : trace
               = flat_map
                   (fun entry : string * list string =>
                      flat_map (fun file => fst (fb (fst entry) file []))
                        (snd entry))
                   walk).
  { rewrite (Houter eq_refl).
    apply flat_map_ext_on. intros [root files] Hentry. cbn [fst snd].
    apply (for_trace_flat_map (fb root)).
    - intros file t. apply file_body_local.
    - apply (for_trace_completed _ Hinner walk [] (root, files));
        [|exact Hentry].
      exact (f_equal snd Hw). }
  rewrite <- Ht. clear.
  destruct (writes_file args); [reflexivity | now rewrite app_nil_r].
Qed.

Lemma run_concatenates_file_reports_witness :
  fst (run unparse_simple demo_read demo_parse (fun _ => false) (fun _ => true)
         (mk_Namespace "pkg" false false false true (Some "out.txt") None)
         [("pkg", ["point.py"; "empty.py"]); ("pkg", ["add.py"])])
  = flat_map
      (fun entry : string * list string =>
         flat_map
           (fun file =>
              fst (file_body unparse_simple demo_read demo_parse (fun _ => false)
                     (mk_Namespace "pkg" false false false true
                        (Some "out.txt") None)
                     true true true (fst entry) file []))
           (snd entry))
      [("pkg", ["point.py"; "empty.py"]); ("pkg", ["add.py"])]
    ++ [Close].
Proof.
  apply (run_concatenates_file_reports unparse_simple demo_read demo_parse
           (fun _ => false) (fun _ => true)
           (mk_Namespace "pkg" false false false true (Some "out.txt") None)
           [("pkg", ["point.py"; "empty.py"]); ("pkg", ["add.py"])]);
    reflexivity.
Defined.

(** ** The exclusion patterns *)

Lemma matches_any_app (fnmatch : string -> string -> bool)
  (ps qs : list string) (name : string) :
  matches_any fnmatch (ps ++ qs) name
  = matches_any fnmatch ps name || matches_any fnmatch qs name.
Proof. unfold matches_any. apply existsb_app. Qed.

Lemma prune_dirs_drops (fnmatch : string -> string -> bool)
  (patterns pre post : list string) (name : string) :
  matches_any fnmatch patterns name = true ->
  prune_dirs fnmatch patterns (pre ++ name :: post)
  = prune_dirs fnmatch patterns (pre ++ post).
Proof.
  intros Hm. unfold prune_dirs. rewrite !filter_app. cbn [filter].
  now rewrite Hm.
Qed.

(** X16.  The default patterns cannot be lifted.  A name that a default
    pattern matches is matched by the patterns in force whatever
    [--exclude] holds: as a directory it is pruned from the walk, and as
    a file it is skipped by the driver, which leaves the trace as it is
    and does not read it. *)
Theorem default_excludes_always_apply :
  forall (fnmatch : string -> string -> bool) args name,
    matches_any fnmatch DEFAULT_EXCLUDES name = true ->
    matches_any fnmatch (exclude_patterns args) name = true
    /\ (forall pre post,
        prune_dirs fnmatch (exclude_patterns args) (pre ++ name :: post)
        = prune_dirs fnmatch (exclude_patterns args) (pre ++ post))
    /\ (forall (unparse : expr -> string) read_file ast_parse
               incl_c incl_f output_file root trace,
        file_body unparse read_file ast_parse
          (matches_any fnmatch (exclude_patterns args))
          args incl_c incl_f output_file root name trace
        = (trace, None)).
Proof.
  intros fnmatch args name Hd.
  assert (Hm : matches_any fnmatch (exclude_patterns args) name = true).
  { unfold exclude_patterns. now rewrite matches_any_app, Hd. }
  repeat split.
  - exact Hm.
  - intros. now apply prune_dirs_drops.
  - intros. unfold file_body. rewrite Hm. cbn [negb]. now rewrite andb_false_r.
Qed.

(** The theorem for a matcher that compares the name with the pattern,
    at the name [build] and the arguments [--exclude docs]. *)
Lemma default_excludes_always_apply_witness :
  matches_any String.eqb
    (exclude_patterns
       (mk_Namespace "pkg" false false false false None (Some "docs")))
    "build" = true
  /\ prune_dirs String.eqb
       (exclude_patterns
          (mk_Namespace "pkg" false false false false None (Some "docs")))
       (["src"] ++ "build" :: ["docs"; "tests"])
     = prune_dirs String.eqb
         (exclude_patterns
            (mk_Namespace "pkg" false false false false None (Some "docs")))
         (["src"] ++ ["docs"; "tests"]).
Proof.
  pose proof (default_excludes_always_apply String.eqb
                (mk_Namespace "pkg" false false false false None (Some "docs"))
                "build" eq_refl) as (Hm & Hp & _).
  split; [exact Hm | exact (Hp ["src"] ["docs"; "tests"])].
Defined.

Lemma split_on_whole (sep : ascii) (p : string) :
  has_char sep p = false -> split_on sep p = [p].
Proof.
  induction p as [|a p IH]; intros Hp; [reflexivity|].
  cbn in Hp. apply orb_false_iff in Hp as [Ha Hp].
  cbn [split_on]. rewrite Ha, (IH Hp). reflexivity.
Qed.

Lemma split_on_piece (sep : ascii) (p s : string) :
  has_char sep p = false ->
  split_on sep (p +++ String sep s) = p :: split_on sep s.
Proof.
  induction p as [|a p IH]; intros Hp.
  - cbn. now rewrite Ascii.eqb_refl.
  - cbn in Hp. apply orb_false_iff in Hp as [Ha Hp].
    cbn [append split_on]. rewrite Ha, (IH Hp). reflexivity.
Qed.

Lemma split_on_concat (sep : ascii) (ps : list string) :
  ps <> [] ->
  forallb (fun p => negb (has_char sep p)) ps = true ->
  split_on sep (String.concat (String sep EmptyString) ps) = ps.
Proof.
  induction ps as [|p ps IH]; intros Hne Hps; [congruence|].
  cbn in Hps. apply andb_true_iff in Hps as [Hp Hps].
  apply negb_true_iff in Hp.
  destruct ps as [|q ps].
  - cbn. now apply split_on_whole.
  - change (String.concat (String sep EmptyString) (p :: q :: ps))
      with (p +++ String sep (String.concat (String sep EmptyString) (q :: ps))).
    rewrite (split_on_piece sep p _ Hp), IH; [reflexivity | discriminate | exact Hps].
Qed.

(** X17.  [--exclude] adds its pieces to the defaults.  When the
    argument is the patterns [ps] joined by [|], none of them holding a
    [|], and is not the empty string, the patterns in force are the
    defaults and exactly the patterns [ps]; without the argument, or
    with an empty one, they are the defaults alone. *)
Theorem exclude_argument_adds_its_patterns :
  forall args,
    (forall ps,
        exclude args = Some (String.concat "|" ps) ->
        String.concat "|" ps <> "" ->
        forallb (fun p => negb (has_char "|"%char p)) ps = true ->
        exclude_patterns args = DEFAULT_EXCLUDES ++ ps)
    /\ (exclude args = None \/ exclude args = Some "" ->
        exclude_patterns args = DEFAULT_EXCLUDES).
Proof.
  intros args. split.
  - intros ps He Hne Hps. unfold exclude_patterns. rewrite He.
    rewrite (truthy_true _ Hne). f_equal.
    apply (split_on_concat "|"%char ps); [|exact Hps].
    intros ->. now apply Hne.
  - intros [He|He]; unfold exclude_patterns; rewrite He; reflexivity.
Qed.

Lemma exclude_argument_adds_its_patterns_witness :
  exclude_patterns
    (mk_Namespace "pkg" false false false false None (Some "docs|*.tmp|tests"))
  = DEFAULT_EXCLUDES ++ ["docs"; "*.tmp"; "tests"].
Proof.
  apply (proj1 (exclude_argument_adds_its_patterns
                  (mk_Namespace "pkg" false false false false None
                     (Some "docs|*.tmp|tests")))
           ["docs"; "*.tmp"; "tests"]);
    [reflexivity | discriminate | reflexivity].
Defined.
